(** * tak2msc: the template compositor, the event mailboxes and the listeners

    A shallow embedding of the Python programs of the repository
    (tak2mm.py, tak2msc-nogui.py, tak2msc.py, tak2cp.py) and the properties
    of their natural-language specification.

    Conventions.
    - A Python [str] is a [string]; a character is the code point of the
      same number, so the text handled here is the Latin-1 range of Unicode.
      [str.split], [str.isspace] and the UTF-8 encoding are the ones of
      Python on that range.
    - A Python list of lines is a [list string], read with [!!] and
      written with [<[i:=x]>]; every index the code uses is in range.
    - A statement that can raise returns a [result]. *)

From Stdlib Require Import NArith Ascii String List Bool Lia.
From stdpp Require Import base option list strings gmap.
From Stdlib Require Import DecimalString.
Import ListNotations.

Set Warnings "-register-all".

Local Open Scope string_scope.
Local Open Scope list_scope.

(** ** Python string operations *)

Module PyStr.

(** [sub in s] *)
Fixpoint contains (sub s : string) : bool :=
  String.prefix sub s ||
  match s with
  | EmptyString => false
  | String _ t => contains sub t
  end.

(** [s.replace(a, b)] for one-character [a] and [b] *)
Fixpoint replace_char (a b : ascii) (s : string) : string :=
  match s with
  | EmptyString => EmptyString
  | String c t =>
      String (if Ascii.eqb c a then b else c) (replace_char a b t)
  end.

(** [c in s] for one character *)
Fixpoint has_char (c : ascii) (s : string) : bool :=
  match s with
  | EmptyString => false
  | String x t => Ascii.eqb x c || has_char c t
  end.

Definition LF : ascii := ascii_of_N 10.
Definition SP : ascii := ascii_of_N 32.
Definition NL : string := String LF EmptyString.

(** A line of text with its newline. *)
Definition ln (s : string) : string := s +:+ NL.

(** [c.isspace()] on the code points below 256:
    TAB LF VT FF CR, FS GS RS US, SPACE, NEL and NO-BREAK SPACE. *)
Definition isspace (c : ascii) : bool :=
  let n := N_of_ascii c in
  ((9 <=? n) && (n <=? 13) || (28 <=? n) && (n <=? 32)
   || (n =? 133) || (n =? 160))%N.

(** [s.split()]: the maximal runs of characters that are not whitespace.
    [cur] is the run being read. *)
Fixpoint split_go (cur s : string) : list string :=
  match s with
  | EmptyString => if String.eqb cur "" then [] else [cur]
  | String c t =>
      if isspace c
      then (if String.eqb cur "" then split_go "" t
            else cur :: split_go "" t)
      else split_go (cur +:+ String c "") t
  end.

Definition split (s : string) : list string := split_go "" s.

(** [sep.join(ws)] *)
Fixpoint join (sep : string) (ws : list string) : string :=
  match ws with
  | [] => ""
  | [w] => w
  | w :: ws' => w +:+ sep +:+ join sep ws'
  end.

(** [s.upper()] on the ASCII letters, all that a hexadecimal digest has. *)
Definition upper_char (c : ascii) : ascii :=
  let n := N_of_ascii c in
  if ((97 <=? n) && (n <=? 122))%N then ascii_of_N (n - 32) else c.

Fixpoint upper (s : string) : string :=
  match s with
  | EmptyString => EmptyString
  | String c t => String (upper_char c) (upper t)
  end.

(** [bytes(s, 'utf-8')]: one byte below U+0080, two bytes up to U+00FF. *)
Definition utf8_char (c : ascii) : list N :=
  let n := N_of_ascii c in
  if (n <? 128)%N then [n]
  else [N.lor 192 (N.shiftr n 6); N.lor 128 (N.land n 63)].

Fixpoint utf8 (s : string) : list N :=
  match s with
  | EmptyString => []
  | String c t => utf8_char c ++ utf8 t
  end.

End PyStr.

(** ** hashlib.md5

    The library function, after RFC 1321: 32-bit words are [N] with the
    wrap-around written out. *)

Module MD5.

Local Open Scope N_scope.

Definition add32 (a b : N) : N := (a + b) mod 2 ^ 32.
Definition not32 (a : N) : N := N.lxor a 0xffffffff.
Definition rotl32 (x c : N) : N :=
  N.lor (N.shiftl x c mod 2 ^ 32) (N.shiftr x (32 - c)).

Definition K : list N :=
  [ 0xd76aa478; 0xe8c7b756; 0x242070db; 0xc1bdceee; 0xf57c0faf; 0x4787c62a;
    0xa8304613; 0xfd469501; 0x698098d8; 0x8b44f7af; 0xffff5bb1; 0x895cd7be;
    0x6b901122; 0xfd987193; 0xa679438e; 0x49b40821; 0xf61e2562; 0xc040b340;
    0x265e5a51; 0xe9b6c7aa; 0xd62f105d; 0x02441453; 0xd8a1e681; 0xe7d3fbc8;
    0x21e1cde6; 0xc33707d6; 0xf4d50d87; 0x455a14ed; 0xa9e3e905; 0xfcefa3f8;
    0x676f02d9; 0x8d2a4c8a; 0xfffa3942; 0x8771f681; 0x6d9d6122; 0xfde5380c;
    0xa4beea44; 0x4bdecfa9; 0xf6bb4b60; 0xbebfbc70; 0x289b7ec6; 0xeaa127fa;
    0xd4ef3085; 0x04881d05; 0xd9d4d039; 0xe6db99e5; 0x1fa27cf8; 0xc4ac5665;
    0xf4292244; 0x432aff97; 0xab9423a7; 0xfc93a039; 0x655b59c3; 0x8f0ccc92;
    0xffeff47d; 0x85845dd1; 0x6fa87e4f; 0xfe2ce6e0; 0xa3014314; 0x4e0811a1;
    0xf7537e82; 0xbd3af235; 0x2ad7d2bb; 0xeb86d391 ].

Definition shifts : list N :=
  [ 7; 12; 17; 22; 7; 12; 17; 22; 7; 12; 17; 22; 7; 12; 17; 22;
    5; 9; 14; 20; 5; 9; 14; 20; 5; 9; 14; 20; 5; 9; 14; 20;
    4; 11; 16; 23; 4; 11; 16; 23; 4; 11; 16; 23; 4; 11; 16; 23;
    6; 10; 15; 21; 6; 10; 15; 21; 6; 10; 15; 21; 6; 10; 15; 21 ].

Definition regs : Type := N * N * N * N.

Definition init : regs := (0x67452301, 0xefcdab89, 0x98badcfe, 0x10325476).

(** One of the 64 operations on the block [M] of sixteen words. *)
Definition op (M : list N) (r : regs) (i : nat) : regs :=
  let '(A, B, C, D) := r in
  let n := N.of_nat i in
  let '(F, g) :=
    if n <? 16 then (N.lor (N.land B C) (N.land (not32 B) D), n)
    else if n <? 32
    then (N.lor (N.land D B) (N.land (not32 D) C), (5 * n + 1) mod 16)
    else if n <? 48 then (N.lxor B (N.lxor C D), (3 * n + 5) mod 16)
    else (N.lxor C (N.lor B (not32 D)), (7 * n) mod 16) in
  let F' := add32 (add32 (add32 F A) (nth i K 0)) (nth (N.to_nat g) M 0) in
  (D, add32 B (rotl32 F' (nth i shifts 0)), B, C).

Definition block (r : regs) (M : list N) : regs :=
  let '(a0, b0, c0, d0) := r in
  let '(A, B, C, D) := fold_left (op M) (seq 0 64) r in
  (add32 a0 A, add32 b0 B, add32 c0 C, add32 d0 D).

(** Little-endian words of a byte string whose length is a multiple of 4. *)
Fixpoint words (bs : list N) : list N :=
  match bs with
  | b0 :: b1 :: b2 :: b3 :: r =>
      (b0 + 2 ^ 8 * b1 + 2 ^ 16 * b2 + 2 ^ 24 * b3) :: words r
  | _ => []
  end.

Definition le_bytes (n : nat) (x : N) : list N :=
  map (fun k => N.shiftr x (8 * N.of_nat k) mod 256) (seq 0 n).

(** The message, a one bit, zeros up to 56 modulo 64, and the length in
    bits as a 64-bit little-endian number. *)
Definition pad (msg : list N) : list N :=
  let len := N.of_nat (length msg) in
  msg ++ [128] ++ repeat 0 (N.to_nat ((119 - len mod 64) mod 64))
      ++ le_bytes 8 ((8 * len) mod 2 ^ 64).

Definition digest (msg : list N) : list N :=
  let ws := words (pad msg) in
  let '(a, b, c, d) :=
    fold_left (fun r j => block r (firstn 16 (skipn (16 * j) ws)))
              (seq 0 (length ws / 16)) init in
  le_bytes 4 a ++ le_bytes 4 b ++ le_bytes 4 c ++ le_bytes 4 d.

Definition hex_digit (n : N) : ascii :=
  if n <? 10 then ascii_of_N (48 + n) else ascii_of_N (87 + n).

Fixpoint hex (bs : list N) : string :=
  match bs with
  | [] => EmptyString
  | b :: r => String (hex_digit (b / 16)) (String (hex_digit (b mod 16)) (hex r))
  end.

(** [hashlib.md5(msg).hexdigest()] *)
Definition hexdigest (msg : list N) : string := hex (digest msg).

End MD5.

(** ** The compositor: is_cot_template and calculate_digest
    (tak2mm.py and tak2msc-nogui.py, the same text in both) *)

Module Compositor.

Import PyStr.

Definition BT_LINE : string := "BT" +:+ NL.            (* 'BT\n' *)
Definition SUBJECT : string := "SUBJ/COTXML//".
Definition BLANK_REMARKS : string := "GENTEXT/REMARKS/-//".
Definition DIGEST_MARK : string := "[DIGEST:".

Definition is_cot_template (lines : list string) : bool :=
  let '(cotXmlSubject, blankRemarks) :=
    fold_left
      (fun '(subj, blank) line =>
         (if contains SUBJECT line then true else subj,
          if contains BLANK_REMARKS line then true else blank))
      lines (false, false) in
  if cotXmlSubject && blankRemarks then true else false.

(** ['GENTEXT/REMARKS/' + cotString + '//' + '\n'] *)
Definition remarks_line (cotString : string) : string :=
  "GENTEXT/REMARKS/" +:+ cotString +:+ "//" +:+ NL.

(** [' '.join(bigString.split())] *)
Definition normalize (bigString : string) : string :=
  join " " (split bigString).

(** [hashlib.md5(bytes(bigString, 'utf-8')).hexdigest().upper()] *)
Definition md5_upper (bigString : string) : string :=
  upper (MD5.hexdigest (utf8 bigString)).

(** ['[DIGEST:' + digest + ']\n'] *)
Definition digest_line (digest : string) : string :=
  "[DIGEST:" +:+ digest +:+ "]" +:+ NL.

(** The local variables of calculate_digest other than [lines]. *)
Record locals := Locals {
  bigString : string;
  digest : string;
  startOfString : bool;
  endOfString : bool;
  pastClassifier : bool
}.

Definition initial : locals := Locals "" "" false false false.

(** The if/elif chain of the loop body on [lines[i] = line]: the new
    locals and, when the branch assigns [lines[i]], the string assigned. *)
Definition on_line (cotString : string) (v : locals) (line : string)
  : locals * option string :=
  let '(Locals big dg started ended past) := v in
  if negb started && negb ended then
    if contains BT_LINE line
    then (Locals big dg true ended past, None)
    else (v, None)
  else if started && negb ended && negb past then
    (Locals big dg started ended true, None)
  else if started && negb ended && past then
    if contains BT_LINE line then
      (Locals big dg started true past, None)
    else if contains BLANK_REMARKS line then
      let line' := remarks_line cotString in
      (Locals (big +:+ replace_char LF SP line') dg started ended past,
       Some line')
    else
      (Locals (big +:+ replace_char LF SP line) dg started ended past, None)
  else if started && ended then
    if contains DIGEST_MARK line then
      let big' := normalize big in
      let dg' := md5_upper big' in
      (Locals big' dg' started ended past, Some (digest_line dg'))
    else (v, None)
  else (v, None).

(** One iteration [i] of [for i in range(len(lines))]. *)
Definition iteration (cotString : string) (st : locals * list string)
    (i : nat) : locals * list string :=
  let '(v, lines) := st in
  match lines !! i with
  | None => st
  | Some line =>
      match on_line cotString v line with
      | (v', Some line') => (v', <[i := line']> lines)
      | (v', None) => (v', lines)
      end
  end.

Definition calculate_digest_loop (lines : list string) (cotString : string)
  : locals * list string :=
  fold_left (iteration cotString) (seq 0 (length lines)) (initial, lines).

Definition calculate_digest (lines : list string) (cotString : string)
  : list string :=
  snd (calculate_digest_loop lines cotString).

(** *** The same scan as a function of the remaining lines

    The four phases of the flags: before the span, on the classifier,
    inside the span, after the span. *)

Fixpoint after_span (big : string) (ls : list string) : list string :=
  match ls with
  | [] => []
  | l :: r =>
      if contains DIGEST_MARK l
      then digest_line (md5_upper (normalize big))
             :: after_span (normalize big) r
      else l :: after_span big r
  end.

Fixpoint in_span (cot big : string) (ls : list string) : list string :=
  match ls with
  | [] => []
  | l :: r =>
      if contains BT_LINE l then l :: after_span big r
      else if contains BLANK_REMARKS l
      then remarks_line cot
             :: in_span cot (big +:+ replace_char LF SP (remarks_line cot)) r
      else l :: in_span cot (big +:+ replace_char LF SP l) r
  end.

Definition on_classifier (cot : string) (ls : list string) : list string :=
  match ls with
  | [] => []
  | c :: r => c :: in_span cot "" r
  end.

Fixpoint before_span (cot : string) (ls : list string) : list string :=
  match ls with
  | [] => []
  | l :: r =>
      if contains BT_LINE l then l :: on_classifier cot r
      else l :: before_span cot r
  end.

(** The scan of the remaining lines from any locals. *)
Fixpoint scan (cot : string) (v : locals) (ls : list string)
  : locals * list string :=
  match ls with
  | [] => (v, [])
  | l :: r =>
      let '(v', w) := on_line cot v l in
      let '(v'', r') := scan cot v' r in
      (v'', default l w :: r')
  end.

End Compositor.

(** ** The list object that calculate_digest rewrites

    [lines] is a Python list: calculate_digest assigns to [lines[i]] in
    place and returns the list it was given. A heap of list objects makes
    the sharing explicit. *)

Module Store.

Abbreviation heap := (gmap nat (list string)).

(** The call [calculate_digest(lines, cotString)] with [lines] the object
    at [r]: the heap after the call and the object returned. *)
Definition call_calculate_digest (r : nat) (cotString : string) (h : heap)
  : option (heap * nat) :=
  match h !! r with
  | Some lines => Some (<[r := Compositor.calculate_digest lines cotString]> h, r)
  | None => None
  end.

End Store.

(** ** Exceptions

    An exception that no [except] clause of the enclosing [try] names
    leaves the thread function: the thread ends. *)

Inductive exn : Set :=
| IndexError
| TypeError
| NameError (name : string)
| ShutilError             (* shutil.Error: the destination exists *)
| UnicodeDecodeError
| KeyError.

Inductive result (A : Type) : Type :=
| Ok (a : A)
| Raise (e : exn).
Arguments Ok {A} a.
Arguments Raise {A} e.

#[global] Instance result_ret : MRet result := fun A a => Ok a.
#[global] Instance result_bind : MBind result := fun A B k r =>
  match r with
  | Ok a => k a
  | Raise e => Raise e
  end.

(** [xs[i]] *)
Definition index {A : Type} (xs : list A) (i : nat) : result A :=
  match xs !! i with
  | Some x => Ok x
  | None => Raise IndexError
  end.

(** What one pass of a thread's [while started:] loop does to the loop. *)
Inductive outcome (S : Type) : Type :=
| Next (s : S)                    (* falls through or [continue] *)
| Break (s : S)                   (* [break] *)
| Uncaught (e : exn) (s : S).     (* the exception ends the thread *)
Arguments Next {S} s.
Arguments Break {S} s.
Arguments Uncaught {S} e s.

Module PySplit.

(** [s.split(sep)] for a one-character separator: never empty. *)
Fixpoint split_char_go (sep : ascii) (cur s : string) : list string :=
  match s with
  | EmptyString => [cur]
  | String c t =>
      if Ascii.eqb c sep then cur :: split_char_go sep "" t
      else split_char_go sep (cur +:+ String c "") t
  end.

Definition split_char (sep : ascii) (s : string) : list string :=
  split_char_go sep "" s.

(** [s.split(sep)] for a separator of one character or more; [skip]
    counts the characters of a separator found that are still to pass. *)
Fixpoint split_str_go (sep : string) (skip : nat) (cur s : string)
  : list string :=
  match s with
  | EmptyString => [cur]
  | String c t =>
      match skip with
      | S k => split_str_go sep k cur t
      | O =>
          if String.prefix sep s
          then cur :: split_str_go sep (String.length sep - 1) "" t
          else split_str_go sep 0 (cur +:+ String c "") t
      end
  end.

Definition split_str (sep s : string) : list string :=
  split_str_go sep 0 "" s.

End PySplit.

(** ** The event mailboxes and the CoT XML listener *)

Module Mailbox.

Import PyStr PySplit.

Definition QUOTE : string := String (ascii_of_N 34) "".
Definition EVENT_HEADER : string :=
  "<event version=" +:+ QUOTE +:+ "2.0" +:+ QUOTE +:+ " ".
Definition SA_EVENT_TYPE : string := "type=" +:+ QUOTE +:+ "a-f-G-U-C".
Definition PD_EVENT_TYPE : string := "parent_callsign=".

Inductive category : Set := Position | PointDrop.

(** The two module-level slots of tak2mm.py and tak2msc-nogui.py;
    [''] is the empty slot. *)
Record slots := Slots {
  myPosition_event : string;
  pointDropper_event : string
}.

Definition slot (c : category) (m : slots) : string :=
  match c with
  | Position => myPosition_event m
  | PointDrop => pointDropper_event m
  end.

(** tak2mm.py, cotXmlListener, the statements of the [try] after
    [data_string = data.decode("utf-8")]. *)
Definition on_datagram (data_string : string) (m : slots) : result slots :=
  if negb (contains EVENT_HEADER data_string) then Ok m
  else
    let xml := split_char LF data_string in
    x1 ← index xml 1;
    if contains PD_EVENT_TYPE x1 && String.eqb (pointDropper_event m) ""
    then Ok (Slots (myPosition_event m) x1)
    else
      x1' ← index xml 1;
      if contains SA_EVENT_TYPE x1' && String.eqb (myPosition_event m) ""
      then Ok (Slots x1' (pointDropper_event m))
      else Ok m.

(** tak2msc-nogui.py: the same statements through its three helpers. *)
Definition is_cot_xml (xml_string : string) : bool :=
  if contains EVENT_HEADER xml_string then true else false.
Definition is_sa_event (xml_string : string) : bool :=
  if contains SA_EVENT_TYPE xml_string then true else false.
Definition is_pd_event (xml_string : string) : bool :=
  if contains PD_EVENT_TYPE xml_string then true else false.

Definition on_datagram_nogui (data_string : string) (m : slots)
  : result slots :=
  if negb (is_cot_xml data_string) then Ok m
  else
    let xml := split_char LF data_string in
    x1 ← index xml 1;
    if is_pd_event x1 && String.eqb (pointDropper_event m) ""
    then Ok (Slots (myPosition_event m) x1)
    else
      x1' ← index xml 1;
      if is_sa_event x1' && String.eqb (myPosition_event m) ""
      then Ok (Slots x1' (pointDropper_event m))
      else Ok m.

(** tak2msc.py: the slots are the two [StringVar]s of the window, each
    with a status field; [setStatus(_, 1)] writes [messageSatusList[1]]. *)
Definition messageSatusList : list string :=
  ["WAITING FOR MESSAGE"; "READY TO SEND"; "SENDING MESSAGE"; "MESSAGE SENT"].

Record window := Window {
  fromAddress_var : string;
  toAddress_var : string;
  myPosition_var : string;
  pntDropper_var : string;
  myPositionStatus_entry : string;
  pointDropStatus_entry : string
}.


Definition setStatus (c : category) (status_index : nat) (w : window)
  : result window :=
  s ← index messageSatusList status_index;
  match c with
  | Position =>
      Ok (Window (fromAddress_var w) (toAddress_var w) (myPosition_var w)
            (pntDropper_var w) s (pointDropStatus_entry w))
  | PointDrop =>
      Ok (Window (fromAddress_var w) (toAddress_var w) (myPosition_var w)
            (pntDropper_var w) (myPositionStatus_entry w) s)
  end.

Definition on_datagram_gui (data_string : string) (w : window)
  : result window :=
  if negb (is_cot_xml data_string) then Ok w
  else
    let xml := split_char LF data_string in
    x1 ← index xml 1;
    if is_pd_event x1 then
      x ← index xml 1;
      setStatus PointDrop 1
        (Window (fromAddress_var w) (toAddress_var w) (myPosition_var w)
           x (myPositionStatus_entry w) (pointDropStatus_entry w))
    else
      x1' ← index xml 1;
      if is_sa_event x1' then
        x ← index xml 1;
        setStatus Position 1
          (Window (fromAddress_var w) (toAddress_var w) x
             (pntDropper_var w) (myPositionStatus_entry w)
             (pointDropStatus_entry w))
      else Ok w.

(** The window after [event] has been stored for category [c]. *)
Definition stored (c : category) (event : string) (w : window) : window :=
  match c with
  | Position =>
      Window (fromAddress_var w) (toAddress_var w) event (pntDropper_var w)
        "READY TO SEND" (pointDropStatus_entry w)
  | PointDrop =>
      Window (fromAddress_var w) (toAddress_var w) (myPosition_var w) event
        (myPositionStatus_entry w) "READY TO SEND"
  end.

(** tak2msc.py, sendToMsgMachine up to the choice of [message]: the
    event that the button sends, [None] when it only warns. *)
Definition message_to_send (message_type : category) (w : window)
  : option string :=
  if String.eqb (fromAddress_var w) "" || String.eqb (toAddress_var w) ""
  then None
  else
    match message_type with
    | Position =>
        if String.eqb (myPositionStatus_entry w) "READY TO SEND"
        then Some (myPosition_var w) else None
    | PointDrop =>
        if String.eqb (pointDropStatus_entry w) "READY TO SEND"
        then Some (pntDropper_var w) else None
    end.

(** The category of an event line: the PointDrop marker is looked for
    first. *)
Definition classify (event : string) : option category :=
  if contains PD_EVENT_TYPE event then Some PointDrop
  else if contains SA_EVENT_TYPE event then Some Position
  else None.

(** The datagram is a deposit of [event] into the slot of [c]: it has
    the event marker, [event] is its second line and [c] its category. *)
Definition deposit_of (c : category) (event data_string : string) : Prop :=
  contains EVENT_HEADER data_string = true
  /\ split_char LF data_string !! 1 = Some event
  /\ classify event = Some c.


(** The listener loop on the datagrams received in turn; it stops at
    the first exception, which only [socket.timeout] would not be. *)
Fixpoint listen {S : Type} (step : string -> S -> result S)
    (datagrams : list string) (s : S) : outcome S :=
  match datagrams with
  | [] => Next s
  | d :: ds =>
      match step d s with
      | Ok s' => listen step ds s'
      | Raise e => Uncaught e s
      end
  end.

End Mailbox.

(** ** The control-channel listener of tak2mm.py (cpListener) *)

Module Bridge.

Import PyStr PySplit.

(** An [xml.etree.ElementTree.Element]: tag, text ([None] when the
    element is empty) and children. *)
Inductive element : Type :=
| Element (tag : string) (text : option string) (children : list element).

Definition tag (e : element) : string :=
  let '(Element t _ _) := e in t.
Definition text (e : element) : option string :=
  let '(Element _ x _) := e in x.
Definition children (e : element) : list element :=
  let '(Element _ _ cs) := e in cs.

Definition XML_HEADER : string :=
  "<?xml version=" +:+ Mailbox.QUOTE +:+ "1.0" +:+ Mailbox.QUOTE
    +:+ " encoding=" +:+ Mailbox.QUOTE +:+ "UTF-8" +:+ Mailbox.QUOTE +:+ "?>".
Definition TAK_XML_HEADER : string :=
  "<?xml version=" +:+ Mailbox.QUOTE +:+ "1.0" +:+ Mailbox.QUOTE
    +:+ " encoding=" +:+ Mailbox.QUOTE +:+ "UTF-8" +:+ Mailbox.QUOTE
    +:+ " standalone=" +:+ Mailbox.QUOTE +:+ "yes" +:+ Mailbox.QUOTE +:+ "?>".

(** The module-level names bound to a string constant, in each file. *)
Definition tak2mm_names : gmap string string :=
  list_to_map
    [ ("LOCALHOST", "127.0.0.1"); ("TAK_MCAST_GROUP", "239.2.3.1");
      ("XML_HEADER", XML_HEADER); ("EVENT_HEADER", Mailbox.EVENT_HEADER);
      ("SA_EVENT_TYPE", Mailbox.SA_EVENT_TYPE);
      ("PD_EVENT_TYPE", Mailbox.PD_EVENT_TYPE);
      ("IMPORTS_PATH", "C:/MSC/MessageMachine64/imports");
      ("TAK2MSC_PATH", "C:/MSC/MessageMachine64/imports/tak2msc") ].

Definition tak2cp_names : gmap string string :=
  list_to_map
    [ ("SOURCE_STATION", "AAR9EN"); ("DESTINATION_STATION", "ORANGEMAIN");
      ("LOCALHOST", "127.0.0.1"); ("TAK_MCAST_GROUP", "239.2.3.1");
      ("XML_HEADER", XML_HEADER); ("TAK_XML_HEADER", TAK_XML_HEADER);
      ("COT_EVENT_HEADER", Mailbox.EVENT_HEADER) ].

(** Reading a global name. *)
Definition global (names : gmap string string) (n : string) : result string :=
  match names !! n with
  | Some v => Ok v
  | None => Raise (NameError n)
  end.

(** [for grandchild in child: if grandchild.tag == t: x = grandchild.text] *)
Definition texts_of (t : string) (child : element) (x : option string)
  : option string :=
  fold_left (fun x grandchild =>
               if String.eqb (tag grandchild) t then text grandchild else x)
            (children child) x.

(** The body of the inner [try] once [ET.fromstring] has returned
    [root]: the new [command_] and [payload_data_from_cp]. *)
Definition read_record (root : element) (command_ payload : option string)
  : option string * option string :=
  if String.eqb (tag root) "V3PROTOCOL" then
    fold_left
      (fun '(c, p) child =>
         if String.eqb (tag child) "HEADER"
         then (texts_of "COMMAND" child c, p)
         else if String.eqb (tag child) "PAYLOAD"
         then (c, texts_of "DATA" child p)
         else (c, p))
      (children root) (command_, payload)
  else (command_, payload).

Definition is_str (x : option string) (s : string) : bool :=
  match x with
  | Some y => String.eqb y s
  | None => false
  end.

(** The if/elif chain on [command_] (tak2mm.py, lines 242-259): the new
    [payload_data_from_cp] and [data_from_cp]. *)
Definition dispatch (names : gmap string string)
    (command_ payload : option string) (data_from_cp : string)
  : result (option string * string) :=
  if is_str command_ "status" then Ok (payload, data_from_cp)
  else if is_str command_ "config" then Ok (payload, data_from_cp)
  else if is_str command_ "ack" then Ok (payload, data_from_cp)
  else if is_str command_ "data" then
    header ← global names "COT_EVENT_HEADER";
    p ← match payload with Some p => Ok p | None => Raise TypeError end;
    if contains header p then
      if contains "GENTEXT/REMARKS/" p then
        p1 ← index (split_str "GENTEXT/REMARKS/" p) 1;
        p2 ← index (split_str "//" p1) 0;
        tak ← global names "TAK_XML_HEADER";
        Ok (Some p2, tak +:+ NL +:+ p2)
      else Ok (payload, data_from_cp)
    else Ok (payload, data_from_cp)
  else Ok (payload, data_from_cp).

(** [for record in records:], on the results of [ET.fromstring], [None]
    for a record that it rejects (the inner [except] then continues). An
    exception of the if/elif chain is outside that [try]: only
    [socket.timeout] is caught around the loop. *)
Fixpoint on_records (names : gmap string string)
    (records : list (option element)) (payload : option string)
    (data_from_cp : string) : outcome string :=
  match records with
  | [] => Next data_from_cp
  | None :: rest => on_records names rest payload data_from_cp
  | Some root :: rest =>
      let '(command_, payload') := read_record root (Some "") payload in
      match dispatch names command_ payload' data_from_cp with
      | Ok (payload'', data') => on_records names rest payload'' data'
      | Raise e => Uncaught e data_from_cp
      end
  end.

(** One pass of the loop of cpListener on the records of one [recv];
    [payload_data_from_cp] starts as [''] in each pass. *)
Definition cpListener_pass (names : gmap string string)
    (records : list (option element)) (data_from_cp : string)
  : outcome string :=
  on_records names records (Some "") data_from_cp.

End Bridge.

(** ** tak2mm.py: the shared variables, the template listener and the
    main loop.  File operations succeed; a file is its name in its
    directory and its lines. *)

Module Tak2mm.

Import Mailbox.

Definition file : Type := string * list string.

Record world := World {
  started : bool;
  mailbox : slots;
  messageCreator_file : string;
  lines : list string;
  tak2msc_dir : list file;          (* TAK2MSC_PATH, in listdir order *)
  imports_dir : list file;          (* IMPORTS_PATH *)
  templateThread_alive : bool;
  listenerThreads_alive : bool      (* cotXmlThread and cpThread *)
}.

(** [os.remove] *)
Definition remove (name : string) (dir : list file) : list file :=
  filter (fun f => fst f ≠ name) dir.

(** [open(name, 'w')] and [writelines] *)
Definition write (name : string) (content : list string) (dir : list file)
  : list file :=
  if decide (name ∈ map fst dir)
  then map (fun f => if decide (fst f = name) then (name, content) else f) dir
  else dir ++ [(name, content)].

(** One pass of the loop of templateListener. *)
Definition templateListener_pass (w : world) : outcome world :=
  match tak2msc_dir w with
  | (filename, content) :: _ =>
      if (length (lines w) =? 0)%nat then
        if negb (Compositor.is_cot_template content) then
          Break (World (started w) (mailbox w) "" []
                   (remove filename (tak2msc_dir w)) (imports_dir w)
                   (templateThread_alive w) (listenerThreads_alive w))
        else
          Next (World (started w) (mailbox w) filename content
                  (tak2msc_dir w) (imports_dir w)
                  (templateThread_alive w) (listenerThreads_alive w))
      else Next w
  | [] => Next w
  end.

(** After the loop: every file of the directory is removed and the
    thread returns. *)
Definition templateListener_exit (w : world) : world :=
  World (started w) (mailbox w) (messageCreator_file w) (lines w)
    [] (imports_dir w) false (listenerThreads_alive w).

(** The thread from one pass on: [None] while it is still polling after
    [passes] passes. *)
Fixpoint templateListener (passes : nat) (w : world) : option world :=
  match passes with
  | O => None
  | S n =>
      if started w then
        match templateListener_pass w with
        | Next w' => templateListener n w'
        | Break w' | Uncaught _ w' => Some (templateListener_exit w')
        end
      else Some (templateListener_exit w)
  end.

(** The main loop, first part: with a template held and an event
    pending, the event is composed into the template and its slot is
    cleared; the flag is [event_ready]. *)
Definition compose_pending (w : world) : world * bool :=
  let template_exists := (0 <? length (lines w))%nat in
  let sa_event_exists := negb (String.eqb (myPosition_event (mailbox w)) "") in
  let pd_event_exists := negb (String.eqb (pointDropper_event (mailbox w)) "") in
  if template_exists && sa_event_exists then
    (World (started w) (Slots "" (pointDropper_event (mailbox w)))
       (messageCreator_file w)
       (Compositor.calculate_digest (lines w) (myPosition_event (mailbox w)))
       (tak2msc_dir w) (imports_dir w)
       (templateThread_alive w) (listenerThreads_alive w), true)
  else if template_exists && pd_event_exists then
    (World (started w) (Slots (myPosition_event (mailbox w)) "")
       (messageCreator_file w)
       (Compositor.calculate_digest (lines w) (pointDropper_event (mailbox w)))
       (tak2msc_dir w) (imports_dir w)
       (templateThread_alive w) (listenerThreads_alive w), true)
  else (w, false).

(** The names that [shutil.move] finds taken in IMPORTS_PATH: those of
    its files and that of the hand-off directory, TAK2MSC_PATH being
    IMPORTS_PATH/tak2msc. Names are the entries as the file system tells
    them apart. *)
Definition imports_entries (imports : list file) : list string :=
  "tak2msc" :: map fst imports.

(** The main loop, second part: the lines are written back and the
    file is moved to the imports directory; when [shutil.move] raises,
    the destination being there, remove_old_files empties the hand-off
    directory. *)
Definition hand_over (w : world) : world :=
  let name := messageCreator_file w in
  if decide (name ∈ imports_entries (imports_dir w)) then
    World (started w) (mailbox w) "" [] [] (imports_dir w)
      (templateThread_alive w) (listenerThreads_alive w)
  else
    World (started w) (mailbox w) "" []
      (remove name (tak2msc_dir w))
      (imports_dir w ++ [(name, lines w)])
      (templateThread_alive w) (listenerThreads_alive w).

(** One pass of the main loop. *)
Definition main_pass (w : world) : outcome world :=
  if negb (listenerThreads_alive w) || negb (templateThread_alive w) then
    Break (World false (mailbox w) (messageCreator_file w) (lines w)
             (tak2msc_dir w) (imports_dir w)
             (templateThread_alive w) (listenerThreads_alive w))
  else
    let '(w', event_ready) := compose_pending w in
    if event_ready then Next (hand_over w') else Next w'.

End Tak2mm.

(** ** tak2msc-nogui.py: the main loop, which is also its template watcher *)

Module Nogui.

Import Mailbox.

Record world := World {
  mailbox : slots;
  tak2msc_dir : list Tak2mm.file;
  imports_dir : list Tak2mm.file
}.

Definition main_pass (w : world) : outcome world :=
  match tak2msc_dir w with
  | (filename, content) :: _ =>
      if negb (String.eqb (myPosition_event (mailbox w)) "")
         || negb (String.eqb (pointDropper_event (mailbox w)) "")
      then
        if Compositor.is_cot_template content then
          let '(lines, mailbox') :=
            if negb (String.eqb (pointDropper_event (mailbox w)) "") then
              (Compositor.calculate_digest content
                 (pointDropper_event (mailbox w)),
               Slots (myPosition_event (mailbox w)) "")
            else
              (Compositor.calculate_digest content
                 (myPosition_event (mailbox w)),
               Slots "" (pointDropper_event (mailbox w))) in
          if decide (filename ∈ Tak2mm.imports_entries (imports_dir w)) then
            Uncaught ShutilError
              (World mailbox' (Tak2mm.write filename lines (tak2msc_dir w))
                     (imports_dir w))
          else
            Next (World mailbox' (Tak2mm.remove filename (tak2msc_dir w))
                    (imports_dir w ++ [(filename, lines)]))
        else
          Next (World (mailbox w) (Tak2mm.remove filename (tak2msc_dir w))
                  (imports_dir w))
      else Next w
  | [] => Next w
  end.

End Nogui.

(** ** The shape of a template *)

Module Shape.

Import PyStr Compositor.

(** The line contains 'BT' and a newline right after it. *)
Definition sentinel (l : string) : Prop :=
  exists a b, l = a +:+ "BT" +:+ NL +:+ b.

(** No line of [ls] is taken for a sentinel, for a blank-remarks
    placeholder, for a digest placeholder. *)
Definition no_sentinel (ls : list string) : Prop :=
  Forall (fun l => contains BT_LINE l = false) ls.
Definition no_blank_remarks (ls : list string) : Prop :=
  Forall (fun l => contains BLANK_REMARKS l = false) ls.
Definition no_digest (ls : list string) : Prop :=
  Forall (fun l => contains DIGEST_MARK l = false) ls.

(** The span lines once the payload is in: every line that matches the
    blank-remarks placeholder is the remarks line of the payload. *)
Definition splice (cot : string) (span : list string) : list string :=
  map (fun l => if contains BLANK_REMARKS l then remarks_line cot else l)
      span.

(** Line [s] is the first line taken for a sentinel: the start. *)
Definition first_sentinel (ls : list string) (s : nat) : Prop :=
  (exists y, ls !! s = Some y /\ contains BT_LINE y = true)
  /\ forall j y, j < s -> ls !! j = Some y -> contains BT_LINE y = false.

(** With the start at line [s] and the classifier at line [s + 1], line
    [i] is inside the span: no sentinel from line [s + 2] to line [i]. *)
Definition inside_span (ls : list string) (s i : nat) : Prop :=
  s + 1 < i
  /\ forall j y, s + 1 < j <= i -> ls !! j = Some y ->
                 contains BT_LINE y = false.

(** Line [i] comes after a sentinel that follows the classifier. *)
Definition after_end_sentinel (ls : list string) (s i : nat) : Prop :=
  exists e y, s + 1 < e < i /\ ls !! e = Some y /\ contains BT_LINE y = true.

(** [bigString] after the lines [span] have been added to [big]. *)
Definition big_after (big : string) (span : list string) : string :=
  fold_left (fun acc l => acc +:+ replace_char LF SP l) span big.

End Shape.

(** ** Sample inputs *)

Module Samples.

Import PyStr Mailbox.

(** A datagram of two lines: the XML prolog and the event element. *)
Definition datagram (event : string) : string :=
  Bridge.XML_HEADER +:+ NL +:+ event.

Definition position_event (uid : string) : string :=
  EVENT_HEADER +:+ "uid=" +:+ QUOTE +:+ uid +:+ QUOTE
    +:+ " type=" +:+ QUOTE +:+ "a-f-G-U-C" +:+ QUOTE +:+ "/>".

Definition point_drop_event (uid : string) : string :=
  EVENT_HEADER +:+ "uid=" +:+ QUOTE +:+ uid +:+ QUOTE
    +:+ " type=" +:+ QUOTE +:+ "a-u-G" +:+ QUOTE
    +:+ "><link parent_callsign=" +:+ QUOTE +:+ "ALPHA" +:+ QUOTE
    +:+ "/></event>".

(** A point dropped with the type of a friendly ground unit: both
    markers. *)
Definition friendly_point_drop_event (uid : string) : string :=
  EVENT_HEADER +:+ "uid=" +:+ QUOTE +:+ uid +:+ QUOTE
    +:+ " type=" +:+ QUOTE +:+ "a-f-G-U-C" +:+ QUOTE
    +:+ "><link parent_callsign=" +:+ QUOTE +:+ "ALPHA" +:+ QUOTE
    +:+ "/></event>".

Definition template : list string :=
  [ln "SUBJ/COTXML//"; ln "BT"; ln "UNCLAS"; ln "GENTEXT/REMARKS/-//";
   ln "BT"; ln "#0001"; ln "[DIGEST:]"; ln "NNNN"].

(** A window with both addresses chosen and no event yet. *)
Definition window0 : window :=
  Window "AAR9EN" "ORANGEMAIN" "" ""
    "WAITING FOR MESSAGE" "WAITING FOR MESSAGE".

(** A V3PROTOCOL record from the control channel with the given
    command and payload data. *)
Definition record (command data : string) : Bridge.element :=
  Bridge.Element "V3PROTOCOL" None
    [ Bridge.Element "HEADER" None
        [ Bridge.Element "POSITIONID" (Some "CP") [];
          Bridge.Element "COMMAND" (Some command) [] ];
      Bridge.Element "PAYLOAD" None
        [ Bridge.Element "DATA" (Some data) [] ] ].

(** tak2mm.py running, nothing held, the hand-off directory as given. *)
Definition world0 (dir : list Tak2mm.file) : Tak2mm.world :=
  Tak2mm.World true (Slots "" "") "" [] dir [] true true.

End Samples.

(** ** The wording of the specification, for comparison *)

Module SpecWords.

Import PyStr.

(** "runs of whitespace collapsed to single spaces": every maximal run
    of whitespace characters becomes one space, wherever it stands. *)
Fixpoint collapse_runs (s : string) : string :=
  match s with
  | EmptyString => EmptyString
  | String c t =>
      if isspace c then
        match t with
        | String c' _ =>
            if isspace c' then collapse_runs t
            else String SP (collapse_runs t)
        | EmptyString => String SP EmptyString
        end
      else String c (collapse_runs t)
  end.

(** Whitespace removed at the start, at the end, at both ends. *)
Fixpoint lstrip (s : string) : string :=
  match s with
  | EmptyString => EmptyString
  | String c t => if isspace c then lstrip t else s
  end.

Fixpoint rstrip (s : string) : string :=
  match s with
  | EmptyString => EmptyString
  | String c t =>
      match rstrip t with
      | EmptyString => if isspace c then EmptyString else String c EmptyString
      | r => String c r
      end
  end.

Definition strip (s : string) : string := lstrip (rstrip s).

(** "the concatenation of the span lines ..., each line's newline
    replaced by a space" *)
Definition concat_lines (span : list string) : string :=
  fold_right (fun l acc => replace_char LF SP l +:+ acc) "" span.

End SpecWords.

(** The state that an outcome carries. *)
Definition state_after {S : Type} (o : outcome S) : S :=
  match o with
  | Next s | Break s | Uncaught _ s => s
  end.

(** ** What the socket hands to cotXmlListener *)

Module Receive.

(** The bytes that [sock.recvfrom] returned, by what
    [data.decode("utf-8")] makes of them: a string, or UnicodeDecodeError
    when they are not UTF-8. *)
Inductive datagram : Type :=
| Utf8 (data_string : string)
| NotUtf8.

(** The statements of the [try] of cotXmlListener after [recvfrom], the
    decoding included; [step] is what follows it in the variant. The
    [print] is taken to succeed. *)
Definition on_recv {S : Type} (step : string -> S -> result S)
    (data : datagram) (s : S) : result S :=
  match data with
  | Utf8 data_string => step data_string s
  | NotUtf8 => Raise UnicodeDecodeError
  end.

End Receive.

(** ** Words *)

Module Words.

Import PyStr.

(** No character of [s] is whitespace. *)
Definition spaceless (s : string) : Prop :=
  forall a c b, s = a +:+ String c b -> isspace c = false.

(** A word: not empty and without whitespace. *)
Definition word (w : string) : Prop := w <> "" /\ spaceless w.

End Words.

(** ** tak2mm.py, cpListener: the event inside a wrapped message *)

Module Unwrap.

Import PyStr PySplit.

(** Lines 253-254:
    [payload_data_from_cp.split('GENTEXT/REMARKS/')[1].split('//')[0]]. *)
Definition extract_remarks (payload_data_from_cp : string) : result string :=
  p1 ← index (split_str "GENTEXT/REMARKS/" payload_data_from_cp) 1;
  index (split_str "//" p1) 0.

(** An occurrence of [sep] begins inside [a] when [rest] follows [a]. *)
Fixpoint begins_in (sep a rest : string) : bool :=
  match a with
  | EmptyString => false
  | String _ t => String.prefix sep (a +:+ rest) || begins_in sep t rest
  end.

(** The record is well formed and its command, the text of the last
    COMMAND element of its HEADER, is 'data'. *)
Definition is_data_record (record : option Bridge.element) : bool :=
  match record with
  | Some root =>
      Bridge.is_str (fst (Bridge.read_record root (Some "") (Some ""))) "data"
  | None => false
  end.

End Unwrap.

(** ** tak2mm.py: the two socket threads and what they share

    cotXmlListener and cpListener share [data_from_cp]; the datagrams that
    cotXmlListener sends to WinTAK are kept in [to_wintak]. A thread that
    an exception has ended runs no more passes. *)

Module Relay.

Import Mailbox.

Record shared := Shared {
  data_from_cp : string;
  mailbox : slots;
  to_wintak : list string;
  cotXmlThread_alive : bool;
  cpThread_alive : bool
}.

(** What a socket returns to its thread in one pass of its loop. *)
Inductive received : Type :=
| UdpDatagram (data_string : string)
| UdpTimeout (sendto_ok : bool)       (* whether [sock.sendto] would succeed *)
| TcpRecords (records : list (option Bridge.element))
| TcpTimeout.

(** cotXmlListener, the [except socket.timeout] branch: what is held for
    WinTAK is sent and the hold is cleared, sent or not. *)
Definition on_udp_timeout (sendto_ok : bool) (s : shared) : shared :=
  if negb (String.eqb (data_from_cp s) "") then
    Shared ""
      (mailbox s)
      (if sendto_ok then to_wintak s ++ [data_from_cp s] else to_wintak s)
      (cotXmlThread_alive s) (cpThread_alive s)
  else s.

Definition pass (r : received) (s : shared) : shared :=
  match r with
  | UdpDatagram d =>
      if cotXmlThread_alive s then
        match on_datagram d (mailbox s) with
        | Ok m =>
            Shared (data_from_cp s) m (to_wintak s)
              (cotXmlThread_alive s) (cpThread_alive s)
        | Raise _ =>
            Shared (data_from_cp s) (mailbox s) (to_wintak s)
              false (cpThread_alive s)
        end
      else s
  | UdpTimeout ok =>
      if cotXmlThread_alive s then on_udp_timeout ok s else s
  | TcpRecords records =>
      if cpThread_alive s then
        match Bridge.cpListener_pass Bridge.tak2mm_names records
                (data_from_cp s) with
        | Next d | Break d =>
            Shared d (mailbox s) (to_wintak s)
              (cotXmlThread_alive s) (cpThread_alive s)
        | Uncaught _ d =>
            Shared d (mailbox s) (to_wintak s) (cotXmlThread_alive s) false
        end
      else s
  | TcpTimeout => s
  end.

(** The passes of the two threads in the order in which they happen. *)
Definition run (rs : list received) (s : shared) : shared :=
  fold_left (fun s r => pass r s) rs s.

(** The state when the threads start. *)
Definition initial : shared := Shared "" (Slots "" "") [] true true.

End Relay.

(** ** tak2msc.py: sending from the window *)

Module Gui.

Import PyStr Mailbox.

(** [str(n)] for a natural number *)
Definition str_nat (n : nat) : string :=
  NilEmpty.string_of_uint (Nat.to_uint n).

Fixpoint zeros (n : nat) : string :=
  match n with
  | O => EmptyString
  | S k => String "0" (zeros k)
  end.

(** [s.zfill(width)]: zeros on the left, after a sign if there is one. *)
Definition zfill (width : nat) (s : string) : string :=
  let fill := zeros (width - String.length s) in
  match s with
  | String c t =>
      if Ascii.eqb c "+" || Ascii.eqb c "-" then String c (fill +:+ t)
      else fill +:+ s
  | EmptyString => fill
  end.

(** setPriorityTextAndGetMsgTag: [priority.text] and the tag. *)
Definition setPriorityTextAndGetMsgTag (precedence_var : string)
  : string * string :=
  if String.eqb precedence_var "Routine" then ("4", "R")
  else if String.eqb precedence_var "Priority" then ("3", "P")
  else if String.eqb precedence_var "Immediate" then ("2", "O")
  else ("4", "R").

(** getSecurityAndClassification: the security line and the classifier. *)
Definition getSecurityAndClassification (classification_var : string)
  : string * string :=
  if String.eqb classification_var "Unclassified"
  then ("ZNR UUUUU", "UNCLAS")
  else if String.eqb classification_var "Unclassified SVC"
  then ("ZNY UUUUU", "UNCLAS SVC")
  else if String.eqb classification_var "Encrypt For Transmission Only"
  then ("ZNY EEEEE", "UNCLAS EFTO")
  else ("ZNR UUUUU", "UNCLAS").

(** cleanup: both statuses back to the first one, both events deleted. *)
Definition cleanup (w : window) : window :=
  Window (fromAddress_var w) (toAddress_var w) "" ""
    "WAITING FOR MESSAGE" "WAITING FOR MESSAGE".

(** A cell of the address book as [pandas.read_csv] gives it: a string,
    or an int, a float or NaN where the field is a number or empty. *)
Inductive cell : Type :=
| Str (s : string)
| NotStr.

(** The address book: its columns in order, each with its name and its
    cells from the first row down. The frame that the program starts
    with, [pd.DataFrame()], has no column. *)
Definition frame : Type := list (string * list cell).

(** [frame[name]] *)
Fixpoint column (name : string) (f : frame) : result (list cell) :=
  match f with
  | [] => Raise KeyError
  | (n, cells) :: rest =>
      if String.eqb n name then Ok cells else column name rest
  end.

(** [cell == call], as the comparison of a column with a string does it
    cell by cell: what is not a string is not equal. *)
Definition is_call (call : string) (c : cell) : bool :=
  match c with
  | Str s => String.eqb s call
  | NotStr => false
  end.

(** The cells of the rows that the mask keeps. *)
Fixpoint keep (mask : list bool) (cells : list cell) : list cell :=
  match mask, cells with
  | true :: m, c :: cs => c :: keep m cs
  | false :: m, _ :: cs => keep m cs
  | _, _ => []
  end.

(** [frame.loc[frame['CALL SIGN'] == call][name].tolist()[0]] *)
Definition first_of (name call : string) (f : frame) : result cell :=
  keys ← column "CALL SIGN" f;
  cells ← column name f;
  index (keep (map (is_call call) keys) cells) 0.

(** Lines 307-310: the routing indicator of the sender, that of the
    addressee, and their plain-text addresses. *)
Definition address_cells (from to : string) (f : frame)
  : result (cell * cell * cell * cell) :=
  src_ri ← first_of "RI" from f;
  dst_ri ← first_of "RI" to f;
  src_pla ← first_of "PLA" from f;
  dst_pla ← first_of "PLA" to f;
  Ok (src_ri, dst_ri, src_pla, dst_pla).

(** A cell added to a string: TypeError unless it is a string. *)
Definition str_of (c : cell) : result string :=
  match c with
  | Str s => Ok s
  | NotStr => Raise TypeError
  end.

(** The date and time that sendToMsgMachine reads, as formatted there. *)
Record moment := Moment {
  tm_yday : nat;          (* date.timetuple().tm_yday *)
  HM : string;            (* strftime("%H%M") *)
  dHM : string;           (* strftime("%d%H%M") *)
  month_upper : string;   (* strftime("%b").upper() *)
  Y : string              (* strftime("%Y") *)
}.

Record panel := Panel {
  win : window;
  precedence_var : string;
  classification_var : string;
  msgSerial_var : nat;
  addressBookDataFrame : frame;
  encryptionKey_text : string;
  priority_text : string;
  sourceStation_text : string;
  data_text : string
}.

(** Lines 320-335, statement by statement: what each one sets or adds
    to [data.text], or the exception of its right-hand side. *)
Definition text_pieces (key tag security classifier : string)
    (src_ri dst_ri src_pla dst_pla : cell) (serial : nat) (now : moment)
    (training : bool) (message : string) : list (result string) :=
  let digest := MD5.hexdigest (utf8 message) in
  [ Ok (NL +:+ "VZCZC" +:+ key +:+ "999" +:+ NL);
    (d ← str_of dst_ri; Ok (tag +:+ tag +:+ " " +:+ d +:+ NL));
    (r ← str_of src_ri;
     Ok ("DE " +:+ r +:+ " #" +:+ zfill 4 (str_nat serial) +:+ " "
           +:+ zfill 3 (str_nat (tm_yday now)) +:+ HM now +:+ NL));
    Ok (security +:+ NL);
    Ok (tag +:+ " " +:+ dHM now +:+ "Z " +:+ month_upper now +:+ " "
          +:+ Y now +:+ NL);
    (a ← str_of src_pla; Ok ("FM " +:+ a +:+ NL));
    (d ← str_of dst_ri; a ← str_of dst_pla;
     Ok ("TO " +:+ d +:+ "/" +:+ a +:+ NL));
    Ok ("BT" +:+ NL);
    Ok (classifier +:+ NL);
    Ok (message +:+ NL);
    Ok ("BT" +:+ NL);
    Ok ("#" +:+ zfill 4 (str_nat serial) +:+ NL);
    Ok ("[DIGEST:" +:+ upper digest +:+ "]" +:+ NL) ]
  ++ (if training then [Ok ("TRAINING MESSAGE TAKE NO ACTION" +:+ NL)]
      else [])
  ++ [Ok (NL +:+ "NNNN" +:+ NL)].

(** The statements run in turn on [data.text]: the text when they end,
    and the exception that ended them, if any. *)
Fixpoint add_pieces (pieces : list (result string)) (text : string)
  : string * option exn :=
  match pieces with
  | [] => (text, None)
  | Ok piece :: rest => add_pieces rest (text +:+ piece)
  | Raise e :: _ => (text, Some e)
  end.

(** The first statement assigns, the others add. *)
Definition build_text (pieces : list (result string)) (old : string)
  : string * option exn :=
  match pieces with
  | Raise e :: _ => (old, Some e)
  | _ => add_pieces pieces ""
  end.

(** The text of lines 320-335 when the four cells are strings. *)
Definition message_text (key tag security classifier : string)
    (src_ri dst_ri src_pla dst_pla : string) (serial : nat) (now : moment)
    (training : bool) (message : string) : string :=
  let digest := MD5.hexdigest (utf8 message) in
  NL +:+ "VZCZC" +:+ key +:+ "999" +:+ NL
  +:+ tag +:+ tag +:+ " " +:+ dst_ri +:+ NL
  +:+ "DE " +:+ src_ri +:+ " #" +:+ zfill 4 (str_nat serial) +:+ " "
      +:+ zfill 3 (str_nat (tm_yday now)) +:+ HM now +:+ NL
  +:+ security +:+ NL
  +:+ tag +:+ " " +:+ dHM now +:+ "Z " +:+ month_upper now +:+ " " +:+ Y now
      +:+ NL
  +:+ "FM " +:+ src_pla +:+ NL
  +:+ "TO " +:+ dst_ri +:+ "/" +:+ dst_pla +:+ NL
  +:+ "BT" +:+ NL
  +:+ classifier +:+ NL
  +:+ message +:+ NL
  +:+ "BT" +:+ NL
  +:+ "#" +:+ zfill 4 (str_nat serial) +:+ NL
  +:+ "[DIGEST:" +:+ upper digest +:+ "]" +:+ NL
  +:+ (if training then "TRAINING MESSAGE TAKE NO ACTION" +:+ NL else "")
  +:+ NL +:+ "NNNN" +:+ NL.

(** Its lines before the first 'BT': lines 320-326. *)
Definition header_text (key tag security : string)
    (src_ri dst_ri src_pla dst_pla : string) (serial : nat) (now : moment)
  : string :=
  NL +:+ "VZCZC" +:+ key +:+ "999" +:+ NL
  +:+ tag +:+ tag +:+ " " +:+ dst_ri +:+ NL
  +:+ "DE " +:+ src_ri +:+ " #" +:+ zfill 4 (str_nat serial) +:+ " "
      +:+ zfill 3 (str_nat (tm_yday now)) +:+ HM now +:+ NL
  +:+ security +:+ NL
  +:+ tag +:+ " " +:+ dHM now +:+ "Z " +:+ month_upper now +:+ " " +:+ Y now
      +:+ NL
  +:+ "FM " +:+ src_pla +:+ NL
  +:+ "TO " +:+ dst_ri +:+ "/" +:+ dst_pla +:+ NL.

(** The lines of a text, each with its newline, the last one without
    when the text does not end with one: the list that calculate_digest
    takes. [cur] is the line being read. *)
Fixpoint lines_go (cur text : string) : list string :=
  match text with
  | EmptyString => if String.eqb cur "" then [] else [cur]
  | String c t =>
      if Ascii.eqb c LF then (cur +:+ NL) :: lines_go "" t
      else lines_go (cur +:+ String c "") t
  end.

Definition lines_of (text : string) : list string := lines_go "" text.

Definition with_window (w : window) (p : panel) : panel :=
  Panel w (precedence_var p) (classification_var p) (msgSerial_var p)
    (addressBookDataFrame p) (encryptionKey_text p) (priority_text p)
    (sourceStation_text p) (data_text p).

Definition with_text (text : string) (p : panel) : panel :=
  Panel (win p) (precedence_var p) (classification_var p) (msgSerial_var p)
    (addressBookDataFrame p) (encryptionKey_text p) (priority_text p)
    (sourceStation_text p) text.

(** The statements of the [try] after [message] is chosen, up to the
    text: the panel when they end, or the exception and the panel as it
    is when the exception leaves them for the [except] clause. *)
Definition prepare (message_type : category) (now : moment)
    (message : string) (p : panel) : outcome panel :=
  match setStatus message_type 2 (win p) with
  | Raise e => Uncaught e p
  | Ok w2 =>
      let '(priority, tag) :=
        setPriorityTextAndGetMsgTag (precedence_var p) in
      let p2 :=
        Panel w2 (precedence_var p) (classification_var p) (msgSerial_var p)
          (addressBookDataFrame p) (encryptionKey_text p) priority
          (fromAddress_var (win p)) (data_text p) in
      let '(security, classifier) :=
        getSecurityAndClassification (classification_var p) in
      match address_cells (fromAddress_var (win p)) (toAddress_var (win p))
              (addressBookDataFrame p) with
      | Raise e => Uncaught e p2
      | Ok (src_ri, dst_ri, src_pla, dst_pla) =>
          match build_text
                  (text_pieces (encryptionKey_text p) tag security classifier
                     src_ri dst_ri src_pla dst_pla (msgSerial_var p) now
                     (String.eqb (precedence_var p) "Training") message)
                  (data_text p) with
          | (text, None) => Next (with_text text p2)
          | (text, Some e) => Uncaught e (with_text text p2)
          end
      end
  end.

(** sendToMsgMachine: the panel after the call, the value returned and
    the text sent, if any. [delivered] says whether the connection, the
    [recv] and the [sendall] go through. Every exception is caught by the
    [except] clause, which calls cleanup and returns False. *)
Definition sendToMsgMachine (message_type : category) (now : moment)
    (delivered : bool) (p : panel) : panel * bool * option string :=
  match message_to_send message_type (win p) with
  | None => (p, false, None)
  | Some message =>
      match prepare message_type now message p with
      | Next p1 =>
          if delivered then
            match setStatus message_type 3 (win p1) with
            | Ok w3 =>
                (Panel w3 (precedence_var p1) (classification_var p1)
                   (msgSerial_var p1 + 1) (addressBookDataFrame p1)
                   (encryptionKey_text p1) (priority_text p1)
                   (sourceStation_text p1) (data_text p1),
                 true, Some (data_text p1))
            | Raise _ => (with_window (cleanup (win p1)) p1, false, None)
            end
          else (with_window (cleanup (win p1)) p1, false, None)
      | Break p1 | Uncaught _ p1 =>
          (with_window (cleanup (win p1)) p1, false, None)
      end
  end.

(** An address book with two stations, a time of day, and a panel with
    both addresses chosen and a position event ready to send. *)
Definition book : frame :=
  [("CALL SIGN", [Str "AAR9EN"; Str "ORANGEMAIN"]);
   ("RI", [Str "RHAEN"; Str "RHOMN"]);
   ("PLA", [Str "AAR9EN CO"; Str "ORANGE MAIN"])].

Definition noon : moment := Moment 308 "1200" "041200" "NOV" "2026".

Definition panel_ready (event : string) : panel :=
  Panel (Window "AAR9EN" "ORANGEMAIN" event ""
           "READY TO SEND" "WAITING FOR MESSAGE")
    "Routine" "Unclassified" 1 book "MMM" "" "" "".

End Gui.

(** * Properties *)

(** Reads [(x :: l) !! 0] and [(x :: l) !! S i] in a hypothesis. *)
Ltac at_head H := rewrite ?lookup_cons in H; cbv beta iota in H.

(** ** The library functions on known values *)

(** The test suite of RFC 1321, A.5, and a message longer than one block. *)
Example md5_empty :
  MD5.hexdigest (PyStr.utf8 "") = "d41d8cd98f00b204e9800998ecf8427e".
Proof. vm_compute. reflexivity. Qed.

Example md5_abc :
  MD5.hexdigest (PyStr.utf8 "abc") = "900150983cd24fb0d6963f7d28e17f72".
Proof. vm_compute. reflexivity. Qed.

Example md5_message_digest :
  MD5.hexdigest (PyStr.utf8 "message digest")
  = "f96b697d7cb7938d525a2f31aaf161d0".
Proof. vm_compute. reflexivity. Qed.

Example md5_two_blocks :
  PyStr.upper (MD5.hexdigest (PyStr.utf8
    "aaaaaaaaaaaaaaaaaaaaaaaaaaaaaaaaaaaaaaaaaaaaaaaaaaaaaaaaaaaaaaaa"))
  = "014842D480B571495A4A0363793F7367".
Proof. vm_compute. reflexivity. Qed.

Example split_python :
  PyStr.split (" a " +:+ String (ascii_of_N 28) (" b" +:+ String (ascii_of_N 160) ("c" +:+ String (ascii_of_N 133) " ")))
  = ["a"; "b"; "c"].
Proof. vm_compute. reflexivity. Qed.

Example md5_latin1 :
  PyStr.upper (MD5.hexdigest (PyStr.utf8
    (String (ascii_of_N 233) (String (ascii_of_N 160) ""))))
  = "7727F3ABEE5B1FBC99520C15F1DF43D3".
Proof. vm_compute. reflexivity. Qed.

Example split_char_python :
  PySplit.split_char PyStr.LF ("a" +:+ PyStr.NL +:+ "b" +:+ PyStr.NL)
  = ["a"; "b"; ""].
Proof. vm_compute. reflexivity. Qed.

Example split_str_python :
  PySplit.split_str "//" "a//b///" = ["a"; "b"; "/"]
  /\ PySplit.split_str "GENTEXT/REMARKS/" "xGENTEXT/REMARKS/y//z"
     = ["x"; "y//z"]
  /\ PySplit.split_str "//" "" = [""].
Proof. vm_compute. repeat split; reflexivity. Qed.

Example calculate_digest_sample :
  Compositor.calculate_digest
    ["SUBJ/COTXML//" +:+ PyStr.NL; "BT" +:+ PyStr.NL; "UNCLAS" +:+ PyStr.NL;
     "GENTEXT/REMARKS/-//" +:+ PyStr.NL; "BT" +:+ PyStr.NL;
     "[DIGEST:]" +:+ PyStr.NL] "x"
  = ["SUBJ/COTXML//" +:+ PyStr.NL; "BT" +:+ PyStr.NL; "UNCLAS" +:+ PyStr.NL;
     "GENTEXT/REMARKS/x//" +:+ PyStr.NL; "BT" +:+ PyStr.NL;
     "[DIGEST:E0762C99BD4791AFDC2C3D2E79677D6B]" +:+ PyStr.NL].
Proof. vm_compute. reflexivity. Qed.

(** ** Strings *)

Section StringFacts.

Import PyStr.

Lemma append_cons (c : ascii) (a b : string) :
  String c a +:+ b = String c (a +:+ b).
Proof. reflexivity. Qed.

Lemma append_nil (b : string) : "" +:+ b = b.
Proof. reflexivity. Qed.

Lemma append_assoc (a b c : string) : (a +:+ b) +:+ c = a +:+ (b +:+ c).
Proof.
  induction a as [|x a IH]; [reflexivity |].
  rewrite !append_cons. f_equal. exact IH.
Qed.

Lemma append_empty_r (a : string) : a +:+ "" = a.
Proof.
  induction a as [|x a IH]; [reflexivity |].
  rewrite append_cons. f_equal. exact IH.
Qed.

Lemma prefix_append (p s : string) : String.prefix p (p +:+ s) = true.
Proof.
  induction p as [|x p IH]; [now destruct s |].
  rewrite append_cons. simpl.
  destruct (ascii_dec x x); [exact IH | congruence].
Qed.

Lemma prefix_split (p s : string) :
  String.prefix p s = true -> exists b, s = p +:+ b.
Proof.
  revert s. induction p as [|x p IH]; intros s H.
  - exists s. reflexivity.
  - destruct s as [|y s]; simpl in H; [discriminate |].
    destruct (ascii_dec x y) as [->|]; [| discriminate].
    destruct (IH s H) as [b ->]. exists b. reflexivity.
Qed.

Lemma contains_of_prefix (sub s : string) :
  String.prefix sub s = true -> contains sub s = true.
Proof. intros H. destruct s; cbn [contains]; rewrite H; reflexivity. Qed.

Lemma contains_tail (sub : string) (c : ascii) (s : string) :
  contains sub s = true -> contains sub (String c s) = true.
Proof. intros H. cbn [contains]. rewrite H. apply orb_true_r. Qed.

(** [sub in s] holds exactly when [s] is some text, [sub], some text. *)
Lemma contains_spec (sub s : string) :
  contains sub s = true <-> exists a b, s = a +:+ sub +:+ b.
Proof.
  split.
  - induction s as [|c s IH]; cbn [contains]; intros H.
    + rewrite orb_false_r in H. destruct (prefix_split _ _ H) as [b Hb].
      exists "", b. exact Hb.
    + apply orb_true_iff in H as [H | H].
      * destruct (prefix_split _ _ H) as [b Hb]. exists "", b. exact Hb.
      * destruct (IH H) as (a & b & ->). exists (String c a), b. reflexivity.
  - intros (a & b & ->). induction a as [|c a IH].
    + rewrite append_nil. apply contains_of_prefix, prefix_append.
    + rewrite append_cons. apply contains_tail, IH.
Qed.

End StringFacts.

(** ** Joining the split words is collapsing and stripping *)

Section Normalize.

Import PyStr Compositor SpecWords.

Lemma rstrip_cons_word (c : ascii) (s : string) :
  isspace c = false -> rstrip (String c s) = String c (rstrip s).
Proof. intros H. cbn [rstrip]. rewrite H. now destruct (rstrip s). Qed.

Lemma rstrip_cons_keep (c : ascii) (s : string) :
  rstrip s <> "" -> rstrip (String c s) = String c (rstrip s).
Proof. intros H. cbn [rstrip]. now destruct (rstrip s). Qed.

Lemma split_go_word (cur s : string) :
  cur <> "" -> split_go cur s <> [].
Proof.
  revert cur. induction s as [|c t IH]; intros cur H; cbn [split_go].
  - apply String.eqb_neq in H. now rewrite H.
  - destruct (isspace c).
    + apply String.eqb_neq in H. now rewrite H.
    + apply IH. now destruct cur.
Qed.

Lemma join_cons (w : string) (ws : list string) :
  join " " (w :: ws)
  = w +:+ (match ws with [] => "" | _ => " " +:+ join " " ws end).
Proof. destruct ws; cbn [join]; [now rewrite append_empty_r | reflexivity]. Qed.

(** The two facts go together through the string: what follows a word
    being read, and what a whitespace character leaves at the end. *)
Lemma collapse_runs_cons (c : ascii) (s : string) :
  collapse_runs (String c s)
  = if isspace c then
      match s with
      | String c' _ =>
          if isspace c' then collapse_runs s else String SP (collapse_runs s)
      | EmptyString => String SP EmptyString
      end
    else String c (collapse_runs s).
Proof. destruct s; reflexivity. Qed.

Lemma split_cons (c : ascii) (s : string) :
  split (String c s)
  = if isspace c then split s else split_go (String c "") s.
Proof. unfold split. cbn [split_go]. now destruct (isspace c). Qed.

(** The two facts go together through the string: what follows a word
    being read, and what a whitespace character leaves at the end. *)
Lemma split_go_collapse (s : string) :
  (forall cur, cur <> "" ->
     join " " (split_go cur s) = cur +:+ rstrip (collapse_runs s))
  /\ (forall c, isspace c = true ->
       rstrip (collapse_runs (String c s))
       = match split s with [] => "" | _ => " " +:+ join " " (split s) end).
Proof.
  induction s as [|c' t [IHL IHK]].
  - split.
    + intros cur H. cbn [split_go]. apply String.eqb_neq in H. rewrite H.
      cbn. now rewrite append_empty_r.
    + intros c Hc. cbn. now rewrite Hc.
  - destruct (isspace c') eqn:E.
    + split.
      * intros cur H. cbn [split_go]. rewrite E.
        apply String.eqb_neq in H. rewrite H.
        rewrite join_cons, (IHK c' E). reflexivity.
      * intros c Hc. rewrite (collapse_runs_cons c), Hc, E.
        rewrite (IHK c' E), split_cons, E. reflexivity.
    + split.
      * intros cur H. cbn [split_go]. rewrite E.
        rewrite IHL by now destruct cur.
        rewrite collapse_runs_cons, E, rstrip_cons_word by exact E.
        now rewrite append_assoc.
      * intros c Hc. rewrite (collapse_runs_cons c), Hc, E.
        rewrite split_cons, E.
        assert (Hsp : isspace SP = true) by reflexivity.
        pose proof (split_go_word (String c' "") t ltac:(discriminate)) as Hne.
        destruct (split_go (String c' "") t) as [|w ws] eqn:Ew; [congruence |].
        rewrite <- Ew, IHL by discriminate.
        rewrite collapse_runs_cons, E.
        rewrite (rstrip_cons_keep SP)
          by (rewrite rstrip_cons_word by exact E; discriminate).
        rewrite rstrip_cons_word by exact E. reflexivity.
Qed.

Lemma lstrip_word (c : ascii) (s : string) :
  isspace c = false -> lstrip (String c s) = String c s.
Proof. intros H. cbn [lstrip]. now rewrite H. Qed.

(** A first word starts the joined words; no whitespace leads them. *)
Lemma lstrip_join_split (s : string) :
  lstrip (join " " (split s)) = join " " (split s).
Proof.
  induction s as [|c t IH]; [reflexivity |].
  rewrite split_cons. destruct (isspace c) eqn:E; [exact IH |].
  rewrite (proj1 (split_go_collapse t)) by discriminate.
  apply lstrip_word, E.
Qed.

(** [' '.join(s.split())] collapses the runs of whitespace of [s] to
    single spaces and drops the space left at either end. *)
Lemma normalize_strip_collapse (s : string) :
  normalize s = strip (collapse_runs s).
Proof.
  unfold normalize, strip. destruct s as [|c t]; [reflexivity |].
  destruct (isspace c) eqn:E.
  - rewrite (proj2 (split_go_collapse t) c E), split_cons, E.
    destruct (split t) eqn:Es; [reflexivity |].
    rewrite <- Es. change (" " +:+ join " " (split t))
      with (String SP (join " " (split t))).
    cbn [lstrip]. change (isspace SP) with true. cbv iota.
    symmetry. apply lstrip_join_split.
  - rewrite split_cons, E, (proj1 (split_go_collapse t)) by discriminate.
    rewrite collapse_runs_cons, E, rstrip_cons_word by exact E.
    symmetry. apply lstrip_word, E.
Qed.

End Normalize.

(** ** calculate_digest: the loop over the indices is the scan of the lines *)

Section LoopIsScan.

Import PyStr Compositor.

Variable cot : string.

Lemma scan_fst_snd (v : locals) (l : string) (r : list string) :
  scan cot v (l :: r)
  = (fst (scan cot (fst (on_line cot v l)) r),
     default l (snd (on_line cot v l))
       :: snd (scan cot (fst (on_line cot v l)) r)).
Proof.
  simpl. destruct (on_line cot v l) as [v' w]. simpl.
  destruct (scan cot v' r). reflexivity.
Qed.

(** With [done] already passed and [todo] ahead, the remaining
    iterations rewrite [todo] as [scan] does and leave [done] alone. *)
Lemma iterations_scan (todo done : list string) (v : locals) :
  fold_left (iteration cot) (seq (length done) (length todo))
            (v, done ++ todo)
  = (fst (scan cot v todo), done ++ snd (scan cot v todo)).
Proof.
  revert done v. induction todo as [|l r IH]; intros done v.
  - reflexivity.
  - rewrite scan_fst_snd. cbn [length seq fold_left fst snd].
    unfold iteration at 2.
    rewrite (list_lookup_middle done r l (length done) eq_refl).
    destruct (on_line cot v l) as [v' [l'|]] eqn:E; cbn [fst snd default].
    + replace (<[length done:=l']> (done ++ l :: r))
        with ((done ++ [l']) ++ r).
      2:{ rewrite <- (Nat.add_0_r (length done)) at 1.
          rewrite insert_app_r. simpl. now rewrite <- app_assoc. }
      replace (S (length done)) with (length (done ++ [l']))
        by (rewrite length_app; simpl; lia).
      rewrite IH. now rewrite <- app_assoc.
    + replace (done ++ l :: r) with ((done ++ [l]) ++ r)
        by now rewrite <- app_assoc.
      replace (S (length done)) with (length (done ++ [l]))
        by (rewrite length_app; simpl; lia).
      rewrite IH. now rewrite <- app_assoc.
Qed.

Lemma calculate_digest_scan (lines : list string) :
  calculate_digest lines cot = snd (scan cot initial lines).
Proof.
  unfold calculate_digest, calculate_digest_loop.
  now rewrite (iterations_scan lines [] initial : fold_left _ (seq 0 _) (_, lines) = _).
Qed.

(** The scan, phase by phase. *)
Lemma scan_after_span (ls : list string) (big dg : string) (past : bool) :
  snd (scan cot (Locals big dg true true past) ls) = after_span big ls.
Proof.
  revert big dg. induction ls as [|l r IH]; intros big dg; [reflexivity |].
  rewrite scan_fst_snd. cbn [on_line after_span negb andb].
  destruct past; cbn [negb andb];
    destruct (contains DIGEST_MARK l); cbn [fst snd default];
    now rewrite IH.
Qed.

Lemma scan_in_span (ls : list string) (big dg : string) :
  snd (scan cot (Locals big dg true false true) ls) = in_span cot big ls.
Proof.
  revert big dg. induction ls as [|l r IH]; intros big dg; [reflexivity |].
  rewrite scan_fst_snd. cbn [on_line in_span negb andb].
  destruct (contains BT_LINE l); cbn [fst snd default].
  - now rewrite scan_after_span.
  - destruct (contains BLANK_REMARKS l); cbn [fst snd default];
      now rewrite IH.
Qed.

Lemma scan_on_classifier (ls : list string) :
  snd (scan cot (Locals "" "" true false false) ls) = on_classifier cot ls.
Proof.
  destruct ls as [|c r]; [reflexivity |].
  rewrite scan_fst_snd. cbn [on_line on_classifier negb andb fst snd default].
  now rewrite scan_in_span.
Qed.

Lemma scan_before_span (ls : list string) :
  snd (scan cot initial ls) = before_span cot ls.
Proof.
  unfold initial. induction ls as [|l r IH]; [reflexivity |].
  rewrite scan_fst_snd. cbn [on_line before_span negb andb].
  destruct (contains BT_LINE l); cbn [fst snd default].
  - now rewrite scan_on_classifier.
  - now rewrite IH.
Qed.

(** calculate_digest is the four-phase scan of its lines. *)
Lemma calculate_digest_phases (lines : list string) :
  calculate_digest lines cot = before_span cot lines.
Proof. rewrite calculate_digest_scan. apply scan_before_span. Qed.

End LoopIsScan.

(** ** calculate_digest on a template given by its parts *)

Section Parts.

Import PyStr Compositor Shape.

Variable cot : string.

Lemma before_span_pre (pre rest : list string) :
  no_sentinel pre ->
  before_span cot (pre ++ rest) = pre ++ before_span cot rest.
Proof.
  induction 1 as [|l pre Hl _ IH]; [reflexivity |].
  cbn [app before_span]. rewrite Hl. now rewrite IH.
Qed.

Lemma in_span_app (span rest : list string) (big : string) :
  no_sentinel span ->
  in_span cot big (span ++ rest)
  = splice cot span ++ in_span cot (big_after big (splice cot span)) rest.
Proof.
  intros H. revert big. induction H as [|l span Hl _ IH]; intros big.
  - reflexivity.
  - cbn [app in_span splice map big_after fold_left]. rewrite Hl.
    destruct (contains BLANK_REMARKS l); now rewrite IH.
Qed.

Lemma in_span_open (span : list string) (big : string) :
  no_sentinel span -> in_span cot big span = splice cot span.
Proof.
  intros H. rewrite <- (app_nil_r span) at 1.
  rewrite in_span_app by assumption. cbn [in_span]. apply app_nil_r.
Qed.

Lemma after_span_post (post rest : list string) (big : string) :
  no_digest post -> after_span big (post ++ rest) = post ++ after_span big rest.
Proof.
  induction 1 as [|l post Hl _ IH]; [reflexivity |].
  cbn [app after_span]. rewrite Hl. now rewrite IH.
Qed.

Lemma after_span_none (post : list string) (big : string) :
  no_digest post -> after_span big post = post.
Proof.
  intros H. rewrite <- (app_nil_r post) at 1.
  rewrite after_span_post by assumption. apply app_nil_r.
Qed.

Lemma splice_none (span : list string) :
  no_blank_remarks span -> splice cot span = span.
Proof.
  induction 1 as [|l span Hl _ IH]; [reflexivity |].
  cbn [splice map]. rewrite Hl. f_equal. exact IH.
Qed.

Lemma splice_app (a b : list string) :
  splice cot (a ++ b) = splice cot a ++ splice cot b.
Proof. apply map_app. Qed.

Lemma big_after_concat (span : list string) (big : string) :
  big_after big span = big +:+ SpecWords.concat_lines span.
Proof.
  revert big. induction span as [|l span IH]; intros big.
  - cbn. now rewrite append_empty_r.
  - cbn [big_after fold_left SpecWords.concat_lines fold_right].
    fold (big_after (big +:+ replace_char LF SP l) span).
    rewrite IH. apply append_assoc.
Qed.

(** A template with both sentinels: the span between them is spliced
    and the lines after the second sentinel get the digest. *)
Lemma calculate_digest_closed (pre span post : list string) (s c e : string) :
  no_sentinel pre -> contains BT_LINE s = true ->
  no_sentinel span -> contains BT_LINE e = true ->
  calculate_digest (pre ++ s :: c :: span ++ e :: post) cot
  = pre ++ s :: c :: splice cot span
        ++ e :: after_span (SpecWords.concat_lines (splice cot span)) post.
Proof.
  intros Hpre Hs Hspan He.
  rewrite calculate_digest_phases, before_span_pre by assumption.
  cbn [before_span on_classifier]. rewrite Hs.
  rewrite in_span_app by assumption. cbn [in_span]. rewrite He.
  now rewrite big_after_concat, append_nil.
Qed.

(** A template whose span is never closed: only the splice happens. *)
Lemma calculate_digest_open (pre span : list string) (s c : string) :
  no_sentinel pre -> contains BT_LINE s = true -> no_sentinel span ->
  calculate_digest (pre ++ s :: c :: span) cot
  = pre ++ s :: c :: splice cot span.
Proof.
  intros Hpre Hs Hspan.
  rewrite calculate_digest_phases, before_span_pre by assumption.
  cbn [before_span on_classifier]. rewrite Hs.
  now rewrite in_span_open.
Qed.

Lemma sentinel_contains (l : string) :
  sentinel l <-> contains BT_LINE l = true.
Proof.
  unfold sentinel, BT_LINE. rewrite contains_spec.
  split; intros (a & b & ->); exists a, b; now rewrite ?append_assoc.
Qed.

End Parts.

(** ** The digest of a composed template *)

Section Digest.

Import PyStr Compositor Shape SpecWords.

(** C1, as amended. For every template made of lines without a sentinel,
    a start sentinel, the classifier, a span without a sentinel that has
    exactly one blank-remarks placeholder line, an end sentinel and, after
    it, exactly one digest-placeholder line, calculate_digest with payload
    [P] puts the remarks line of [P] in the place of the placeholder and
    rewrites the digest line to '[DIGEST:', the uppercase hexadecimal MD5 of
    the canonical string, ']' and a newline. The canonical string is the
    concatenation of the span lines with the remarks line of [P] in, each
    newline replaced by a space, runs of whitespace collapsed to single
    spaces, and the whitespace at both ends removed. *)
Theorem digest_of_spliced_span
    (pre span1 span2 post1 post2 : list string) (s c rem e dig P : string) :
  no_sentinel pre -> contains BT_LINE s = true ->
  no_sentinel (span1 ++ rem :: span2) ->
  no_blank_remarks (span1 ++ span2) -> contains BLANK_REMARKS rem = true ->
  contains BT_LINE e = true ->
  no_digest (post1 ++ post2) -> contains DIGEST_MARK dig = true ->
  calculate_digest
    (pre ++ s :: c :: (span1 ++ rem :: span2) ++ e :: post1 ++ dig :: post2) P
  = pre ++ s :: c :: (span1 ++ remarks_line P :: span2) ++ e :: post1
        ++ ("[DIGEST:"
              +:+ upper (MD5.hexdigest (utf8
                    (strip (collapse_runs
                       (concat_lines (span1 ++ remarks_line P :: span2))))))
              +:+ "]" +:+ NL)
        :: post2.
Proof.
  intros Hpre Hs Hspan Hblank Hrem He Hpost Hdig.
  rewrite calculate_digest_closed by assumption.
  apply Forall_app in Hblank as [Hb1 Hb2].
  apply Forall_app in Hpost as [Hp1 Hp2].
  rewrite splice_app. cbn [splice map]. rewrite Hrem.
  fold (splice P span1) (splice P span2).
  rewrite !splice_none by assumption.
  rewrite after_span_post by assumption.
  cbn [after_span]. rewrite Hdig.
  rewrite after_span_none by assumption.
  now rewrite normalize_strip_collapse.
Qed.

Lemma digest_of_spliced_span_witness :
  calculate_digest Samples.template "x"
  = [ln "SUBJ/COTXML//"; ln "BT"; ln "UNCLAS"; ln "GENTEXT/REMARKS/x//";
     ln "BT"; ln "#0001"; ln "[DIGEST:E0762C99BD4791AFDC2C3D2E79677D6B]";
     ln "NNNN"].
Proof.
  etransitivity.
  - apply (digest_of_spliced_span
             [ln "SUBJ/COTXML//"] [] [] [ln "#0001"] [ln "NNNN"]
             (ln "BT") (ln "UNCLAS") (ln "GENTEXT/REMARKS/-//") (ln "BT")
             (ln "[DIGEST:]") "x");
      try (vm_compute; reflexivity);
      repeat constructor.
  - vm_compute. reflexivity.
Defined.

(** C1, as worded, fails. With the runs of whitespace only collapsed,
    the hashed text of the first template would end in a space: the digest
    written is that of the text without it. In the second template the only
    placeholder between the sentinels is the line after the start sentinel:
    it is skipped as the classifier, no line gets the payload and the digest
    is that of the one span line. *)
Lemma digest_is_not_of_collapsed_runs :
  let template :=
    [ln "BT"; ln "UNCLAS"; ln "GENTEXT/REMARKS/-//"; ln "BT"; ln "[DIGEST:]"] in
  let template' :=
    [ln "BT"; ln "GENTEXT/REMARKS/-//"; ln "#0001"; ln "BT"; ln "[DIGEST:]"] in
  (collapse_runs (concat_lines [remarks_line "x"]) = "GENTEXT/REMARKS/x// "
   /\ calculate_digest template "x" !! 4
      = Some (digest_line (md5_upper "GENTEXT/REMARKS/x//"))
   /\ calculate_digest template "x" !! 4
      <> Some (digest_line
                 (md5_upper (collapse_runs (concat_lines [remarks_line "x"])))))
  /\ calculate_digest template' "x"
     = [ln "BT"; ln "GENTEXT/REMARKS/-//"; ln "#0001"; ln "BT";
        digest_line (md5_upper "#0001")].
Proof.
  cbv zeta. split; [| vm_compute; reflexivity].
  split; [vm_compute; reflexivity |].
  split; [vm_compute; reflexivity |].
  vm_compute. intros H. discriminate H.
Qed.

End Digest.

(** ** Sentinels, the splice and the open span *)

Section Span.

Import PyStr Compositor Shape SpecWords.

Lemma not_sentinel_Forall (ls : list string) :
  Forall (fun l => ~ sentinel l) ls -> no_sentinel ls.
Proof.
  induction 1 as [|l ls H _ IH]; constructor; [| exact IH].
  destruct (contains BT_LINE l) eqn:E; [| reflexivity].
  exfalso. apply H, sentinel_contains, E.
Qed.

(** C5, as amended. calculate_digest takes for a sentinel any line that
    contains 'BT' with a newline right after it, so any line that ends in
    'BT' and its newline, bare or not: the first such line starts the span,
    the line after it is the classifier, and the next such line ends the
    span. A line where 'BT' is not followed by a newline is no sentinel. *)
Theorem sentinel_is_BT_before_newline
    (pre span post : list string) (s c e P : string) :
  Forall (fun l => ~ sentinel l) pre -> sentinel s ->
  Forall (fun l => ~ sentinel l) span -> sentinel e ->
  calculate_digest (pre ++ s :: c :: span ++ e :: post) P
  = pre ++ s :: c :: splice P span
        ++ e :: after_span (concat_lines (splice P span)) post.
Proof.
  intros Hpre Hs Hspan He.
  apply calculate_digest_closed;
    auto using not_sentinel_Forall; now apply sentinel_contains.
Qed.

Lemma sentinel_is_BT_before_newline_witness :
  calculate_digest
    [ln "FM AAR9EN DEBT"; ln "UNCLAS"; ln "GENTEXT/REMARKS/-//";
     ln "TO SUBT"; ln "[DIGEST:]"] "x"
  = [ln "FM AAR9EN DEBT"; ln "UNCLAS"; ln "GENTEXT/REMARKS/x//";
     ln "TO SUBT"; ln "[DIGEST:E0762C99BD4791AFDC2C3D2E79677D6B]"].
Proof.
  etransitivity.
  - apply (sentinel_is_BT_before_newline
             [] [ln "GENTEXT/REMARKS/-//"] [ln "[DIGEST:]"]
             (ln "FM AAR9EN DEBT") (ln "UNCLAS") (ln "TO SUBT") "x").
    + constructor.
    + exists "FM AAR9EN DE", "". reflexivity.
    + repeat constructor. rewrite sentinel_contains. vm_compute. congruence.
    + exists "TO SU", "". reflexivity.
  - vm_compute. reflexivity.
Defined.

(** C5, as worded, fails: no line of this document is the bare 'BT', yet
    a line that ends in 'BT' starts the span and another one ends it: the
    remarks are spliced and the digest is filled in. *)
Lemma line_ending_in_BT_is_a_sentinel :
  let document :=
    [ln "FM AAR9EN DEBT"; ln "UNCLAS"; ln "GENTEXT/REMARKS/-//";
     ln "TO SUBT"; ln "[DIGEST:]"] in
  Forall (fun l => l <> ln "BT" /\ l <> "BT") document
  /\ calculate_digest document "x"
     = [ln "FM AAR9EN DEBT"; ln "UNCLAS"; ln "GENTEXT/REMARKS/x//";
        ln "TO SUBT"; ln "[DIGEST:E0762C99BD4791AFDC2C3D2E79677D6B]"]
  /\ calculate_digest document "x" <> document.
Proof.
  cbv zeta. split; [| split].
  - repeat constructor; vm_compute; discriminate.
  - vm_compute. reflexivity.
  - vm_compute. discriminate.
Qed.

Lemma splice_lookup (P : string) (span : list string) (i : nat) (l : string) :
  span !! i = Some l ->
  splice P span !! i
  = Some (if contains BLANK_REMARKS l then remarks_line P else l).
Proof. intros H. unfold splice. now rewrite list_lookup_fmap, H. Qed.

(** C6, as amended. In a document with a start sentinel, composing with
    payload [P] replaces every line of the span that matches the
    blank-remarks placeholder, the first one and the later ones alike, with
    'GENTEXT/REMARKS/', [P], '//' and a newline. Such a line keeps its
    original content only when it already is that wrapped line, as the
    line 'GENTEXT/REMARKS/-//' does for the payload '-'. *)
Theorem every_blank_remarks_line_is_replaced
    (pre span rest : list string) (s c P l : string) (i : nat) :
  no_sentinel pre -> contains BT_LINE s = true -> no_sentinel span ->
  span !! i = Some l -> contains BLANK_REMARKS l = true ->
  calculate_digest (pre ++ s :: c :: span ++ rest) P !! (length pre + 2 + i)
  = Some ("GENTEXT/REMARKS/" +:+ P +:+ "//" +:+ NL)
  /\ (calculate_digest (pre ++ s :: c :: span ++ rest) P
        !! (length pre + 2 + i) = Some l
      <-> l = "GENTEXT/REMARKS/" +:+ P +:+ "//" +:+ NL).
Proof.
  intros Hpre Hs Hspan Hi Hl.
  assert (E : calculate_digest (pre ++ s :: c :: span ++ rest) P
                !! (length pre + 2 + i)
              = Some ("GENTEXT/REMARKS/" +:+ P +:+ "//" +:+ NL)).
  { rewrite calculate_digest_phases, before_span_pre by assumption.
    cbn [before_span on_classifier]. rewrite Hs.
    rewrite in_span_app by assumption.
    rewrite lookup_app_r by lia.
    replace (length pre + 2 + i - length pre) with (S (S i)) by lia.
    rewrite 2!lookup_cons.
    rewrite lookup_app_l by (unfold splice; rewrite length_map;
                             now apply lookup_lt_Some with l).
    rewrite (splice_lookup P span i l Hi), Hl. reflexivity. }
  split; [exact E |]. rewrite E. split; [intros [= <-] | intros ->]; reflexivity.
Qed.

Lemma every_blank_remarks_line_is_replaced_witness :
  calculate_digest
    ([] ++ ln "BT" :: ln "UNCLAS"
        :: [ln "GENTEXT/REMARKS/-//"; ln "GENTEXT/REMARKS/-//"]
        ++ [ln "BT"; ln "[DIGEST:]"]) "x" !! (0 + 2 + 1)
  = Some ("GENTEXT/REMARKS/" +:+ "x" +:+ "//" +:+ NL).
Proof.
  apply (every_blank_remarks_line_is_replaced
           [] [ln "GENTEXT/REMARKS/-//"; ln "GENTEXT/REMARKS/-//"]
           [ln "BT"; ln "[DIGEST:]"] (ln "BT") (ln "UNCLAS") "x"
           (ln "GENTEXT/REMARKS/-//") 1);
    try (vm_compute; reflexivity); repeat constructor.
Defined.

(** C6, as worded, fails: the second placeholder line of the span does
    not keep its content. *)
Lemma later_blank_remarks_line_is_replaced_too :
  let document :=
    [ln "BT"; ln "UNCLAS"; ln "GENTEXT/REMARKS/-//";
     ln "GENTEXT/REMARKS/-//"; ln "BT"; ln "[DIGEST:]"] in
  calculate_digest document "x" !! 2 = Some (ln "GENTEXT/REMARKS/x//")
  /\ calculate_digest document "x" !! 3 = Some (ln "GENTEXT/REMARKS/x//")
  /\ calculate_digest document "x" !! 3 <> document !! 3.
Proof.
  cbv zeta. repeat split; try (vm_compute; reflexivity).
  vm_compute. discriminate.
Qed.

(** C8, as amended. For every document with a start sentinel and no
    sentinel after the classifier, calculate_digest returns the document
    with the blank-remarks placeholder lines after the classifier replaced
    and nothing else: no digest is filled in, and every line that does not
    match the blank-remarks placeholder, so every digest-placeholder line
    that is not one too, keeps its content. *)
Theorem open_span_fills_no_digest
    (pre rest : list string) (s P : string) :
  no_sentinel pre -> contains BT_LINE s = true -> no_sentinel (drop 1 rest) ->
  calculate_digest (pre ++ s :: rest) P
  = pre ++ s :: take 1 rest ++ splice P (drop 1 rest)
  /\ forall (i : nat) (l : string),
       (pre ++ s :: rest) !! i = Some l ->
       contains BLANK_REMARKS l = false ->
       calculate_digest (pre ++ s :: rest) P !! i = Some l.
Proof.
  intros Hpre Hs Hrest.
  assert (E : calculate_digest (pre ++ s :: rest) P
              = pre ++ s :: take 1 rest ++ splice P (drop 1 rest)).
  { destruct rest as [|c span].
    - rewrite calculate_digest_phases, before_span_pre by assumption.
      cbn. now rewrite Hs.
    - cbn [take drop app]. now apply calculate_digest_open. }
  split; [exact E |].
  intros i l Hi Hl. rewrite E.
  rewrite <- (take_drop 1 rest) in Hi at 1.
  apply lookup_app_Some in Hi as [Hi | [Hle Hi]].
  { now rewrite lookup_app_l by now apply lookup_lt_Some with l. }
  rewrite lookup_app_r by assumption.
  destruct (i - length pre) as [|j]; [exact Hi |].
  rewrite lookup_cons in Hi |- *.
  apply lookup_app_Some in Hi as [Hi | [Hle' Hi]].
  { now rewrite lookup_app_l by now apply lookup_lt_Some with l. }
  rewrite lookup_app_r by assumption.
  rewrite (splice_lookup P _ _ l Hi), Hl. reflexivity.
Qed.

Lemma open_span_fills_no_digest_witness :
  calculate_digest
    ([ln "SUBJ/COTXML//"] ++ ln "BT"
        :: [ln "UNCLAS"; ln "GENTEXT/REMARKS/-//"; ln "[DIGEST:]"]) "x"
  = [ln "SUBJ/COTXML//"] ++ ln "BT"
      :: take 1 [ln "UNCLAS"; ln "GENTEXT/REMARKS/-//"; ln "[DIGEST:]"]
      ++ splice "x"
           (drop 1 [ln "UNCLAS"; ln "GENTEXT/REMARKS/-//"; ln "[DIGEST:]"]).
Proof.
  apply (open_span_fills_no_digest
           [ln "SUBJ/COTXML//"]
           [ln "UNCLAS"; ln "GENTEXT/REMARKS/-//"; ln "[DIGEST:]"]
           (ln "BT") "x");
    try (vm_compute; reflexivity); repeat constructor.
Defined.

(** C8, as worded, fails: a digest-placeholder line of the open span that
    also matches the blank-remarks placeholder does not keep its content; and
    with a payload that has the digest marker in it, the line is a
    digest-placeholder line in the returned document as well. *)
Lemma digest_placeholder_in_open_span_is_spliced :
  let document :=
    [ln "BT"; ln "UNCLAS"; ln "[DIGEST:]GENTEXT/REMARKS/-//"] in
  let P := "see [DIGEST:]" in
  no_sentinel (drop 1 document)
  /\ document !! 2 = Some (ln "[DIGEST:]GENTEXT/REMARKS/-//")
  /\ contains DIGEST_MARK (ln "[DIGEST:]GENTEXT/REMARKS/-//") = true
  /\ calculate_digest document P !! 2
     = Some (ln "GENTEXT/REMARKS/see [DIGEST:]//")
  /\ contains DIGEST_MARK (ln "GENTEXT/REMARKS/see [DIGEST:]//") = true
  /\ calculate_digest document P !! 2 <> document !! 2.
Proof.
  cbv zeta. split; [repeat constructor |].
  repeat split; try (vm_compute; reflexivity).
  vm_compute. discriminate.
Qed.

End Span.

(** ** Composing twice *)

Section Idempotence.

Import PyStr Compositor Shape.

Variable P : string.

Lemma digest_line_has_mark (d : string) :
  contains DIGEST_MARK (digest_line d) = true.
Proof. apply contains_of_prefix, prefix_append. Qed.

Lemma after_span_twice (ls : list string) (big : string) :
  after_span big (after_span big ls) = after_span big ls.
Proof.
  revert big. induction ls as [|l r IH]; intros big; [reflexivity |].
  cbn [after_span]. destruct (contains DIGEST_MARK l) eqn:E.
  - cbn [after_span]. rewrite digest_line_has_mark. now rewrite IH.
  - cbn [after_span]. rewrite E. now rewrite IH.
Qed.

Hypothesis remarks_no_sentinel : contains BT_LINE (remarks_line P) = false.

Lemma in_span_twice (ls : list string) (big : string) :
  in_span P big (in_span P big ls) = in_span P big ls.
Proof.
  revert big. induction ls as [|l r IH]; intros big; [reflexivity |].
  cbn [in_span]. destruct (contains BT_LINE l) eqn:E.
  - cbn [in_span]. rewrite E. now rewrite after_span_twice.
  - destruct (contains BLANK_REMARKS l) eqn:B; cbn [in_span].
    + rewrite remarks_no_sentinel.
      destruct (contains BLANK_REMARKS (remarks_line P)); now rewrite IH.
    + rewrite E, B. now rewrite IH.
Qed.

Lemma before_span_twice (ls : list string) :
  before_span P (before_span P ls) = before_span P ls.
Proof.
  induction ls as [|l r IH]; [reflexivity |].
  cbn [before_span]. destruct (contains BT_LINE l) eqn:E;
    cbn [before_span]; rewrite E.
  - destruct r as [|c r]; [reflexivity |].
    cbn [on_classifier]. now rewrite in_span_twice.
  - now rewrite IH.
Qed.

End Idempotence.

Section PayloadWithoutSentinel.

Import PyStr Compositor.

Lemma prefix_BT_LINE (s : string) :
  String.prefix BT_LINE s = true ->
  exists r, s = String "B" (String "T" (String LF r)).
Proof. intros H. destruct (prefix_split _ _ H) as [b ->]. now exists b. Qed.

Lemma contains_cons (sub : string) (c : ascii) (s : string) :
  contains sub (String c s)
  = String.prefix sub (String c s) || contains sub s.
Proof. reflexivity. Qed.

(** A sentinel that ends in the text added after the payload starts
    in the payload. *)
Lemma sentinel_before_suffix (p : string) :
  contains BT_LINE (p +:+ "//" +:+ NL) = true -> contains BT_LINE p = true.
Proof.
  induction p as [|c t IH]; [vm_compute; congruence |].
  rewrite append_cons, !contains_cons. intros H.
  apply orb_true_iff in H as [H | H].
  - apply orb_true_iff. left.
    apply prefix_BT_LINE in H as [r H]. injection H as -> H.
    destruct t as [|c1 t]; [discriminate H |].
    rewrite append_cons in H. injection H as -> H.
    destruct t as [|c2 t]; [discriminate H |].
    rewrite append_cons in H. injection H as -> H.
    apply (prefix_append BT_LINE t).
  - rewrite (IH H). apply orb_true_r.
Qed.

(** The remarks line of a payload is a sentinel only if the payload
    itself has 'BT' and a newline in it. *)
Lemma remarks_line_sentinel (p : string) :
  contains BT_LINE p = false -> contains BT_LINE (remarks_line p) = false.
Proof.
  intros H. destruct (contains BT_LINE (remarks_line p)) eqn:E; [| reflexivity].
  rewrite <- H. symmetry. apply sentinel_before_suffix.
  unfold remarks_line in E.
  repeat (rewrite append_cons, contains_cons in E;
          cbn [String.prefix BT_LINE append orb] in E;
          match type of E with
          | context [ascii_dec ?a ?b] =>
              destruct (ascii_dec a b); [discriminate |]
          end; cbn [orb] in E).
  exact E.
Qed.

End PayloadWithoutSentinel.

Section EventLines.

Import PyStr PySplit Compositor Mailbox.

Lemma has_char_append (c : ascii) (a b : string) :
  has_char c (a +:+ b) = has_char c a || has_char c b.
Proof.
  induction a as [|x a IH]; [reflexivity |].
  rewrite append_cons. cbn [has_char]. rewrite IH. apply orb_assoc.
Qed.

(** No element of [s.split(sep)] has the separator in it. *)
Lemma split_char_go_no_sep (sep : ascii) (s cur : string) :
  has_char sep cur = false ->
  Forall (fun x => has_char sep x = false) (split_char_go sep cur s).
Proof.
  revert cur. induction s as [|c t IH]; intros cur H; cbn [split_char_go].
  - now repeat constructor.
  - destruct (Ascii.eqb c sep) eqn:E.
    + constructor; [exact H | now apply IH].
    + apply IH. rewrite has_char_append, H. cbn. now rewrite E.
Qed.

Lemma sentinel_has_newline (x : string) :
  contains BT_LINE x = true -> has_char LF x = true.
Proof.
  intros H. apply contains_spec in H as (a & b & ->).
  rewrite !has_char_append. cbn. apply orb_true_r.
Qed.

(** The event line of a deposit is [xml[1]] of [data_string.split('\n')]:
    it has no newline, so no 'BT' followed by one. *)
Lemma deposit_has_no_sentinel (c : category) (event d : string) :
  deposit_of c event d -> contains BT_LINE event = false.
Proof.
  intros (_ & Hx & _).
  pose proof (split_char_go_no_sep LF d "" eq_refl) as Hall.
  rewrite Forall_lookup in Hall. specialize (Hall 1 event Hx).
  destruct (contains BT_LINE event) eqn:E; [| reflexivity].
  apply sentinel_has_newline in E. congruence.
Qed.

End EventLines.

Section ComposeTwice.

Import PyStr Compositor.

(** C9, as amended. For every template and every payload that does not
    contain 'BT' followed by a newline (so every payload of one line, which
    is all the listeners deposit: [deposit_has_no_sentinel]), composing the
    composed document again with the same payload changes nothing: its
    digest line, as every other line, is that of the first composition.
    The same holds for a second call on the same template object, which the
    first call has rewritten in place. *)
Theorem composition_is_idempotent (lines : list string) (P : string) :
  contains BT_LINE P = false ->
  calculate_digest (calculate_digest lines P) P = calculate_digest lines P
  /\ forall (h : Store.heap) (r : nat),
       h !! r = Some lines ->
       exists h1,
         Store.call_calculate_digest r P h = Some (h1, r)
         /\ h1 !! r = Some (calculate_digest lines P)
         /\ Store.call_calculate_digest r P h1 = Some (h1, r).
Proof.
  intros H.
  assert (E : calculate_digest (calculate_digest lines P) P
              = calculate_digest lines P).
  { rewrite !calculate_digest_phases.
    apply before_span_twice, remarks_line_sentinel, H. }
  split; [exact E |].
  intros h r Hr. unfold Store.call_calculate_digest. rewrite Hr.
  eexists. split; [reflexivity |].
  rewrite lookup_insert_eq. split; [reflexivity |].
  now rewrite E, insert_insert_eq.
Qed.

Lemma composition_is_idempotent_witness :
  let template :=
    [ln "BT"; ln "UNCLAS"; ln "GENTEXT/REMARKS/-//"; ln "BT"; ln "[DIGEST:]"] in
  contains BT_LINE "x" = false
  /\ calculate_digest (calculate_digest template "x") "x"
     = calculate_digest template "x".
Proof.
  cbv zeta. split; [vm_compute; reflexivity |].
  apply (composition_is_idempotent
           [ln "BT"; ln "UNCLAS"; ln "GENTEXT/REMARKS/-//"; ln "BT";
            ln "[DIGEST:]"] "x").
  vm_compute. reflexivity.
Defined.

(** C9, as worded, fails for a payload with 'BT' and a newline in it:
    the remarks line of the first composition ends the span of the second
    one, and the second digest is that of the empty string. *)
Lemma second_composition_changes_digest :
  let template :=
    [ln "BT"; ln "UNCLAS"; ln "GENTEXT/REMARKS/-//"; ln "BT"; ln "[DIGEST:]"] in
  let P := ln "BT" in
  calculate_digest template P !! 4
  = Some (ln "[DIGEST:2C54A6599D4743ADA655F6B9EA6B0FCA]")
  /\ calculate_digest (calculate_digest template P) P !! 4
     = Some (ln "[DIGEST:D41D8CD98F00B204E9800998ECF8427E]")
  /\ calculate_digest (calculate_digest template P) P !! 4
     <> calculate_digest template P !! 4.
Proof.
  cbv zeta. repeat split; try (vm_compute; reflexivity).
  vm_compute. discriminate.
Qed.

End ComposeTwice.

(** ** What calculate_digest leaves alone *)

Section Frame.

Import PyStr Compositor Shape.

Variable P : string.

Lemma after_span_length (ls : list string) (big : string) :
  length (after_span big ls) = length ls.
Proof.
  revert big. induction ls as [|l r IH]; intros big; [reflexivity |].
  cbn [after_span]. destruct (contains DIGEST_MARK l); cbn [length];
    now rewrite IH.
Qed.

Lemma in_span_length (ls : list string) (big : string) :
  length (in_span P big ls) = length ls.
Proof.
  revert big. induction ls as [|l r IH]; intros big; [reflexivity |].
  cbn [in_span]. destruct (contains BT_LINE l); cbn [length].
  - now rewrite after_span_length.
  - destruct (contains BLANK_REMARKS l); cbn [length]; now rewrite IH.
Qed.

Lemma before_span_length (ls : list string) :
  length (before_span P ls) = length ls.
Proof.
  induction ls as [|l r IH]; [reflexivity |].
  cbn [before_span]. destruct (contains BT_LINE l); cbn [length].
  - destruct r as [|c r]; [reflexivity |].
    cbn [on_classifier length]. now rewrite in_span_length.
  - now rewrite IH.
Qed.

Lemma after_span_changed (ls : list string) (big : string) (i : nat)
    (l l' : string) :
  ls !! i = Some l -> after_span big ls !! i = Some l' -> l' <> l ->
  contains DIGEST_MARK l = true.
Proof.
  revert big i. induction ls as [|l0 r IH]; intros big i Hi Ho Hne.
  - discriminate Hi.
  - cbn [after_span] in Ho. destruct (contains DIGEST_MARK l0) eqn:E;
      destruct i as [|i]; at_head Hi; at_head Ho.
    + congruence.
    + eapply IH; eassumption.
    + congruence.
    + eapply IH; eassumption.
Qed.

Lemma in_span_changed (ls : list string) (big : string) (i : nat)
    (l l' : string) :
  ls !! i = Some l -> in_span P big ls !! i = Some l' -> l' <> l ->
  (contains BLANK_REMARKS l = true
   /\ forall j y, j <= i -> ls !! j = Some y -> contains BT_LINE y = false)
  \/ (contains DIGEST_MARK l = true
      /\ exists e y, e < i /\ ls !! e = Some y /\ contains BT_LINE y = true).
Proof.
  revert big i. induction ls as [|l0 r IH]; intros big i Hi Ho Hne.
  { discriminate Hi. }
  cbn [in_span] in Ho. destruct (contains BT_LINE l0) eqn:E.
  - destruct i as [|i]; at_head Hi; at_head Ho; [congruence |].
    right. split; [eapply after_span_changed; eassumption |].
    exists 0, l0. split; [lia | split; [reflexivity | exact E]].
  - assert (Hstep : forall big' i',
               in_span P big' r !! i' = Some l' -> r !! i' = Some l ->
               (contains BLANK_REMARKS l = true
                /\ forall j y, j <= S i' -> (l0 :: r) !! j = Some y ->
                               contains BT_LINE y = false)
               \/ (contains DIGEST_MARK l = true
                   /\ exists e y, e < S i' /\ (l0 :: r) !! e = Some y
                                  /\ contains BT_LINE y = true)).
    { intros big' i' Ho' Hi'.
      destruct (IH big' i' Hi' Ho' Hne) as [[Hb Hj] | [Hd (e & y & He & Hy & Hs)]].
      - left. split; [exact Hb |]. intros [|j] y Hle Hy.
        + at_head Hy. congruence.
        + at_head Hy. apply (Hj j y); [lia | exact Hy].
      - right. split; [exact Hd |]. exists (S e), y.
        split; [lia | split; [exact Hy | exact Hs]]. }
    destruct (contains BLANK_REMARKS l0) eqn:B;
      destruct i as [|i]; at_head Hi; at_head Ho.
    + left. split; [congruence |]. intros j y Hle Hy.
      assert (j = 0) as -> by lia. at_head Hy. congruence.
    + exact (Hstep _ i Ho Hi).
    + congruence.
    + exact (Hstep _ i Ho Hi).
Qed.

Lemma before_span_changed (ls : list string) (i : nat) (l l' : string) :
  ls !! i = Some l -> before_span P ls !! i = Some l' -> l' <> l ->
  exists s, first_sentinel ls s
    /\ ((contains BLANK_REMARKS l = true /\ inside_span ls s i)
        \/ (contains DIGEST_MARK l = true /\ after_end_sentinel ls s i)).
Proof.
  revert i. induction ls as [|l0 r IH]; intros i Hi Ho Hne.
  { discriminate Hi. }
  cbn [before_span] in Ho. destruct (contains BT_LINE l0) eqn:E.
  - destruct i as [|i]; at_head Hi; at_head Ho; [congruence |].
    destruct r as [|c r]; [discriminate Hi |].
    cbn [on_classifier] in Ho.
    destruct i as [|i]; at_head Hi; at_head Ho; [congruence |].
    exists 0. split.
    { split; [exists l0; split; [reflexivity | exact E] | intros j y Hj; lia]. }
    destruct (in_span_changed r "" i l l' Hi Ho Hne)
      as [[Hb Hj] | [Hd (e & y & He & Hy & Hs)]].
    + left. split; [exact Hb |]. split; [lia |].
      intros j y [Hlo Hhi] Hy.
      destruct j as [|[|j]]; [lia | lia |].
      at_head Hy. apply (Hj j y); [lia | exact Hy].
    + right. split; [exact Hd |]. exists (S (S e)), y.
      split; [lia | split; [exact Hy | exact Hs]].
  - destruct i as [|i]; at_head Hi; at_head Ho; [congruence |].
    destruct (IH i Hi Ho Hne) as (s & [(y0 & Hy0 & Hs0) Hfirst] & Hcase).
    exists (S s). split.
    { split; [exists y0; split; [exact Hy0 | exact Hs0] |].
      intros [|j] y Hj Hy; at_head Hy; [congruence |].
      apply (Hfirst j y); [lia | exact Hy]. }
    destruct Hcase as [[Hb [Hlt Hj]] | [Hd (e & y & He & Hy & Hs)]].
    + left. split; [exact Hb |]. split; [lia |].
      intros [|j] y [Hlo Hhi] Hy; [lia |].
      at_head Hy. apply (Hj j y); [lia | exact Hy].
    + right. split; [exact Hd |]. exists (S e), y.
      split; [lia | split; [exact Hy | exact Hs]].
Qed.

Lemma first_sentinel_unique (ls : list string) (s s' : nat) :
  first_sentinel ls s -> first_sentinel ls s' -> s = s'.
Proof.
  intros [(y & Hy & Hs) Hf] [(y' & Hy' & Hs') Hf'].
  destruct (lt_eq_lt_dec s s') as [[Hlt | Heq] | Hgt]; [| exact Heq |].
  - specialize (Hf' s y Hlt Hy). congruence.
  - specialize (Hf s' y' Hgt Hy'). congruence.
Qed.

End Frame.

Section FrameTheorem.

Import PyStr Compositor Shape.

(** C10. For every document and payload, calculate_digest returns as
    many lines as it is given; a line whose content differs from the input
    is either a line that matches the blank-remarks placeholder inside the
    span (after the classifier, with no sentinel from there up to the line)
    or a line that contains the digest marker after the end sentinel; so
    every line up to and including the first start-sentinel line, and the
    classifier line after it, is returned unchanged. *)
Theorem calculate_digest_frame (lines : list string) (P : string) :
  length (calculate_digest lines P) = length lines
  /\ (forall (i : nat) (l l' : string),
        lines !! i = Some l -> calculate_digest lines P !! i = Some l' ->
        l' <> l ->
        exists s, first_sentinel lines s
          /\ ((contains BLANK_REMARKS l = true /\ inside_span lines s i)
              \/ (contains DIGEST_MARK l = true
                  /\ after_end_sentinel lines s i)))
  /\ (forall (s i : nat),
        first_sentinel lines s -> i <= s + 1 ->
        calculate_digest lines P !! i = lines !! i).
Proof.
  assert (Hlen : length (calculate_digest lines P) = length lines)
    by (rewrite calculate_digest_phases; apply before_span_length).
  assert (Hch : forall (i : nat) (l l' : string),
        lines !! i = Some l -> calculate_digest lines P !! i = Some l' ->
        l' <> l ->
        exists s, first_sentinel lines s
          /\ ((contains BLANK_REMARKS l = true /\ inside_span lines s i)
              \/ (contains DIGEST_MARK l = true
                  /\ after_end_sentinel lines s i))).
  { intros i l l'. rewrite calculate_digest_phases.
    apply before_span_changed. }
  split; [exact Hlen | split; [exact Hch |]].
  intros s i Hs Hi.
  destruct (lines !! i) as [l|] eqn:El.
  - destruct (calculate_digest lines P !! i) as [l'|] eqn:El'.
    + destruct (string_dec l' l) as [-> | Hne]; [reflexivity |].
      destruct (Hch i l l' El El' Hne) as (s' & Hs' & Hcase).
      rewrite <- (first_sentinel_unique _ _ _ Hs Hs') in Hcase.
      destruct Hcase as [[_ [Hlt _]] | [_ (e & y & He & _)]]; lia.
    + apply lookup_ge_None in El'. apply lookup_lt_Some in El. lia.
  - apply lookup_ge_None. apply lookup_ge_None in El. lia.
Qed.

End FrameTheorem.

(** ** The mailboxes *)

Section Deposit.

Import PyStr PySplit Mailbox.

Lemma if_true_false (b : bool) : (if b then true else false) = b.
Proof. now destruct b. Qed.

(** The listener of tak2msc-nogui.py is that of tak2mm.py. *)
Lemma on_datagram_nogui_eq (d : string) (m : slots) :
  on_datagram_nogui d m = on_datagram d m.
Proof.
  unfold on_datagram_nogui, on_datagram, is_cot_xml, is_pd_event, is_sa_event.
  rewrite if_true_false.
  destruct (negb (contains EVENT_HEADER d)); [reflexivity |].
  destruct (index (split_char LF d) 1) as [x1|e]; [| reflexivity].
  cbn. now rewrite !if_true_false.
Qed.

(** What a datagram does to the two slots of tak2mm.py. *)
Lemma on_datagram_cases (d : string) (m m' : slots) :
  on_datagram d m = Ok m' ->
  m' = m
  \/ (exists x1, split_char LF d !! 1 = Some x1
        /\ pointDropper_event m = "" /\ m' = Slots (myPosition_event m) x1)
  \/ (exists x1, split_char LF d !! 1 = Some x1
        /\ myPosition_event m = "" /\ m' = Slots x1 (pointDropper_event m)).
Proof.
  unfold on_datagram, index.
  destruct (negb (contains EVENT_HEADER d)); [intros [= <-]; now left |].
  destruct (split_char LF d !! 1) as [x1|]; cbn; [| discriminate].
  destruct (contains PD_EVENT_TYPE x1 && (pointDropper_event m =? "")%string)
    eqn:Epd.
  - intros [= <-]. right. left. exists x1.
    apply andb_true_iff in Epd as [_ Epd]. apply String.eqb_eq in Epd.
    now repeat split.
  - destruct (contains SA_EVENT_TYPE x1 && (myPosition_event m =? "")%string)
      eqn:Esa; intros [= <-]; [| now left].
    right. right. exists x1.
    apply andb_true_iff in Esa as [_ Esa]. apply String.eqb_eq in Esa.
    now repeat split.
Qed.

(** C2, as amended. In tak2mm.py and tak2msc-nogui.py, for every
    category, the listener stores an incoming event in the slot only when
    the slot is empty: a slot that holds an unconsumed event keeps its
    content, and a slot whose content changes was empty and now holds the
    event line of the datagram; so at most one event per category is
    pending. *)
Theorem deposit_only_into_empty_slot
    (c : category) (data_string : string) (m m' : slots) :
  on_datagram data_string m = Ok m'
  \/ on_datagram_nogui data_string m = Ok m' ->
  (slot c m <> "" -> slot c m' = slot c m)
  /\ (slot c m' <> slot c m ->
      slot c m = ""
      /\ split_char LF data_string !! 1 = Some (slot c m')).
Proof.
  rewrite on_datagram_nogui_eq. intros H.
  assert (H' : on_datagram data_string m = Ok m') by now destruct H.
  destruct (on_datagram_cases _ _ _ H')
    as [-> | [(x1 & Hx & He & ->) | (x1 & Hx & He & ->)]];
    destruct c; cbn [slot myPosition_event pointDropper_event];
    split; intros Hne; try congruence; now split.
Qed.

Lemma deposit_only_into_empty_slot_witness :
  let m := Slots "" (Samples.point_drop_event "1") in
  let d := Samples.datagram (Samples.point_drop_event "2") in
  (on_datagram d m = Ok m \/ on_datagram_nogui d m = Ok m)
  /\ (slot PointDrop m <> "" -> slot PointDrop m = slot PointDrop m)
  /\ (slot PointDrop m <> slot PointDrop m ->
      slot PointDrop m = ""
      /\ split_char LF d !! 1 = Some (slot PointDrop m)).
Proof.
  cbv zeta. split.
  - left. vm_compute. reflexivity.
  - apply deposit_only_into_empty_slot. left. vm_compute. reflexivity.
Defined.

(** C2, as worded, fails. In tak2msc.py a point-drop event that arrives
    while the slot holds one replaces it. In tak2mm.py a point-drop event
    that also has the position marker and finds its slot taken is not
    dropped: it goes to the empty position slot. *)
Lemma deposit_into_occupied_slot :
  let w := Window "AAR9EN" "ORANGEMAIN" "" (Samples.point_drop_event "1")
             "WAITING FOR MESSAGE" "READY TO SEND" in
  on_datagram_gui (Samples.datagram (Samples.point_drop_event "2")) w
  = Ok (Window "AAR9EN" "ORANGEMAIN" "" (Samples.point_drop_event "2")
          "WAITING FOR MESSAGE" "READY TO SEND")
  /\ Samples.point_drop_event "2" <> Samples.point_drop_event "1"
  /\ on_datagram (Samples.datagram (Samples.friendly_point_drop_event "2"))
       (Slots "" (Samples.point_drop_event "1"))
     = Ok (Slots (Samples.friendly_point_drop_event "2")
                 (Samples.point_drop_event "1")).
Proof.
  cbv zeta. repeat split; try (vm_compute; reflexivity).
  vm_compute. discriminate.
Qed.

End Deposit.

Section Delivery.

Import PyStr PySplit Mailbox.

Lemma classify_cases (c : category) (event : string) :
  classify event = Some c ->
  match c with
  | PointDrop => contains PD_EVENT_TYPE event = true
  | Position =>
      contains PD_EVENT_TYPE event = false
      /\ contains SA_EVENT_TYPE event = true
  end.
Proof.
  unfold classify. destruct (contains PD_EVENT_TYPE event).
  - intros [= <-]. reflexivity.
  - destruct (contains SA_EVENT_TYPE event); [| discriminate].
    intros [= <-]. now split.
Qed.


(** tak2msc.py: a deposit is stored whatever the slot holds. *)
Lemma on_datagram_gui_deposit (c : category) (event d : string) (w : window) :
  deposit_of c event d -> on_datagram_gui d w = Ok (stored c event w).
Proof.
  intros (Hh & Hx & Hc). apply classify_cases in Hc.
  unfold on_datagram_gui, is_cot_xml, is_pd_event, is_sa_event, index.
  rewrite !if_true_false, Hh, Hx. cbn.
  destruct c.
  - destruct Hc as [-> ->]. reflexivity.
  - rewrite Hc. reflexivity.
Qed.

(** tak2mm.py: a deposit is stored if the slot is empty and leaves the
    slot as it is otherwise. *)
Lemma on_datagram_deposit (c : category) (event d : string) (m : slots) :
  deposit_of c event d ->
  exists m', on_datagram d m = Ok m'
    /\ slot c m' = if String.eqb (slot c m) "" then event else slot c m.
Proof.
  intros (Hh & Hx & Hc). apply classify_cases in Hc.
  unfold on_datagram, index. rewrite Hh, Hx. cbn.
  destruct c; cbn [slot].
  - destruct Hc as [-> ->]. cbn.
    destruct (myPosition_event m =? "")%string; eexists; split; reflexivity.
  - rewrite Hc. cbn.
    destruct (pointDropper_event m =? "")%string eqn:E.
    + eexists; split; reflexivity.
    + destruct (contains SA_EVENT_TYPE event && (myPosition_event m =? "")%string);
        eexists; split; reflexivity.
Qed.










End Delivery.

(** ** Exceptions in the listener threads *)

Section Crashes.

Import PyStr PySplit Mailbox Bridge.

Lemma contains_NL_cons (c : ascii) (s : string) :
  contains NL (String c s) = false ->
  Ascii.eqb c LF = false /\ contains NL s = false.
Proof.
  rewrite contains_cons. intros H. apply orb_false_iff in H as [Hp Hc].
  split; [| exact Hc].
  apply Ascii.eqb_neq. intros ->. cbn in Hp.
  destruct (ascii_dec LF LF); [| congruence]. now destruct s.
Qed.

Lemma split_char_go_one_line (s cur : string) :
  contains NL s = false -> split_char_go LF cur s = [cur +:+ s].
Proof.
  revert cur. induction s as [|c s IH]; intros cur H.
  - cbn. now rewrite append_empty_r.
  - apply contains_NL_cons in H as [Hc Hs]. cbn [split_char_go].
    rewrite Hc, (IH _ Hs). now rewrite append_assoc.
Qed.

(** A datagram with the event marker and no newline: [xml[1]] raises. *)
Lemma one_line_datagram_raises (d : string) (m : slots) :
  contains EVENT_HEADER d = true -> contains NL d = false ->
  on_datagram d m = Raise IndexError.
Proof.
  intros Hh Hn. unfold on_datagram, split_char.
  rewrite Hh, (split_char_go_one_line d "" Hn). reflexivity.
Qed.

(** tak2mm.py: a record whose command is 'data' raises NameError,
    whatever its payload. *)
Lemma data_record_raises (root : element) (rest : list (option element))
    (payload : option string) (data_from_cp : string) :
  fst (read_record root (Some "") payload) = Some "data" ->
  on_records tak2mm_names (Some root :: rest) payload data_from_cp
  = Uncaught (NameError "COT_EVENT_HEADER") data_from_cp.
Proof.
  intros H. cbn [on_records].
  destruct (read_record root (Some "") payload) as [command_ payload'].
  cbn in H. subst command_. reflexivity.
Qed.

(** C4: the code at the two inputs of the claim. A datagram that is one
    event line without a newline ends the CoT XML listener of each variant
    with IndexError; a control-channel record with command 'data' ends the
    CP listener of tak2mm.py with NameError, COT_EVENT_HEADER not being a
    name of that file. *)
Theorem listener_threads_end_on_exceptions :
  let d := Samples.position_event "1" in
  (forall m, listen on_datagram [d] m = Uncaught IndexError m)
  /\ (forall m, listen on_datagram_nogui [d] m = Uncaught IndexError m)
  /\ (forall w, listen on_datagram_gui [d] w = Uncaught IndexError w)
  /\ (forall data_from_cp,
        cpListener_pass tak2mm_names
          [Some (Samples.record "data" (Samples.position_event "1"))]
          data_from_cp
        = Uncaught (NameError "COT_EVENT_HEADER") data_from_cp).
Proof.
  cbv zeta. repeat split; intros; reflexivity.
Qed.

(** With the names of tak2cp.py, where the two constants are defined,
    the same statements pass a wrapped event on to the CoT XML listener. *)
Example data_record_with_names_bound :
  cpListener_pass tak2cp_names
    [Some (Samples.record "data"
             ("GENTEXT/REMARKS/" +:+ Samples.position_event "1" +:+ "//"))]
    ""
  = Next (TAK_XML_HEADER +:+ NL +:+ Samples.position_event "1").
Proof. vm_compute. reflexivity. Qed.

End Crashes.

(** ** The template watcher *)

Section Watcher.

Import PyStr Compositor Tak2mm.

Lemma is_cot_template_flags (ls : list string) (subj blank : bool) :
  fold_left
    (fun '(s, b) line =>
       (if contains SUBJECT line then true else s,
        if contains BLANK_REMARKS line then true else b))
    ls (subj, blank)
  = (subj || existsb (contains SUBJECT) ls,
     blank || existsb (contains BLANK_REMARKS) ls).
Proof.
  revert subj blank. induction ls as [|l r IH]; intros subj blank.
  - cbn. now rewrite !orb_false_r.
  - cbn [fold_left existsb]. rewrite IH.
    destruct (contains SUBJECT l), (contains BLANK_REMARKS l), subj, blank;
      reflexivity.
Qed.

(** A template is valid when some line has the subject marker and some
    line has the blank-remarks marker. *)
Lemma is_cot_template_spec (ls : list string) :
  is_cot_template ls
  = existsb (contains SUBJECT) ls && existsb (contains BLANK_REMARKS) ls.
Proof.
  unfold is_cot_template. rewrite is_cot_template_flags. cbn [orb].
  apply if_true_false.
Qed.

(** tak2mm.py: the pass that reads an invalid file deletes it, holds no
    lines and moves nothing, and leaves the loop. *)
Lemma invalid_template_pass (w : world) (filename : string)
    (content : list string) (rest : list file) :
  tak2msc_dir w = (filename, content) :: rest -> lines w = [] ->
  is_cot_template content = false ->
  templateListener_pass w
  = Break (World (started w) (mailbox w) "" []
             (remove filename (tak2msc_dir w)) (imports_dir w)
             (templateThread_alive w) (listenerThreads_alive w)).
Proof.
  intros Hd Hl Hv. unfold templateListener_pass.
  rewrite Hd, Hl, Hv. reflexivity.
Qed.

(** So the thread returns, having removed every file of the directory,
    and the next pass of the main loop ends the program. *)
Lemma invalid_template_ends_thread (w : world) (filename : string)
    (content : list string) (rest : list file) (n : nat) :
  started w = true ->
  tak2msc_dir w = (filename, content) :: rest -> lines w = [] ->
  is_cot_template content = false ->
  templateListener (S n) w
  = Some (World true (mailbox w) "" [] [] (imports_dir w) false
            (listenerThreads_alive w)).
Proof.
  intros Hs Hd Hl Hv. cbn [templateListener].
  rewrite Hs, (invalid_template_pass w filename content rest Hd Hl Hv).
  unfold templateListener_exit. cbn. now rewrite Hs.
Qed.

(** tak2msc-nogui.py: the pass that reads an invalid file deletes it
    and the loop goes on. *)
Lemma nogui_invalid_template_pass (w : Nogui.world) (filename : string)
    (content : list string) (rest : list file) :
  Nogui.tak2msc_dir w = (filename, content) :: rest ->
  Mailbox.myPosition_event (Nogui.mailbox w) <> ""
  \/ Mailbox.pointDropper_event (Nogui.mailbox w) <> "" ->
  is_cot_template content = false ->
  Nogui.main_pass w
  = Next (Nogui.World (Nogui.mailbox w)
            (remove filename (Nogui.tak2msc_dir w)) (Nogui.imports_dir w)).
Proof.
  intros Hd He Hv. unfold Nogui.main_pass. rewrite Hd, Hv.
  destruct He as [He | He]; apply String.eqb_neq in He; rewrite He;
    cbn [negb orb]; [reflexivity |].
  now rewrite orb_true_r.
Qed.

(** C7: the code at a hand-off directory with an invalid file followed
    by a valid template. The pass of templateListener that reads the invalid
    file deletes it, holds no lines and moves nothing, but it leaves the
    loop: the thread removes the waiting template too and returns, and the
    main loop then stops the program. The directory is not polled again. *)
Theorem invalid_template_stops_polling :
  let w := Samples.world0 [("note.txt", [ln "HELLO"]);
                           ("msg.txt", Samples.template)] in
  templateListener_pass w
  = Break (Samples.world0 [("msg.txt", Samples.template)])
  /\ (forall n, templateListener (S n) w
                = Some (World true (Mailbox.Slots "" "") "" [] [] [] false true))
  /\ main_pass (World true (Mailbox.Slots "" "") "" [] [] [] false true)
     = Break (World false (Mailbox.Slots "" "") "" [] [] [] false true).
Proof.
  cbv zeta. split; [vm_compute; reflexivity |].
  split; [| reflexivity].
  intros n.
  exact (invalid_template_ends_thread
           (Samples.world0 [("note.txt", [ln "HELLO"]);
                            ("msg.txt", Samples.template)])
           "note.txt" [ln "HELLO"] [("msg.txt", Samples.template)] n
           eq_refl eq_refl eq_refl eq_refl).
Qed.

End Watcher.

(** * Further properties of the code *)

(** ** The canonical string *)

Section WordFacts.

Import PyStr Compositor SpecWords Words.

Lemma spaceless_empty : spaceless "".
Proof. intros [|x a] c b H; discriminate H. Qed.

Lemma spaceless_cons (c : ascii) (s : string) :
  isspace c = false -> spaceless s -> spaceless (String c s).
Proof.
  intros Hc Hs [|x a] c' b H.
  - rewrite append_nil in H. injection H as -> _. exact Hc.
  - rewrite append_cons in H. injection H as _ H. exact (Hs a c' b H).
Qed.

Lemma spaceless_inv (c : ascii) (s : string) :
  spaceless (String c s) -> isspace c = false /\ spaceless s.
Proof.
  intros H. split.
  - exact (H "" c s eq_refl).
  - intros a c' b ->. exact (H (String c a) c' b eq_refl).
Qed.

Lemma spaceless_snoc (s : string) (c : ascii) :
  spaceless s -> isspace c = false -> spaceless (s +:+ String c "").
Proof.
  induction s as [|x s IH]; intros Hs Hc.
  - rewrite append_nil. apply spaceless_cons; [exact Hc | apply spaceless_empty].
  - rewrite append_cons. apply spaceless_inv in Hs as [Hx Hs].
    apply spaceless_cons; [exact Hx | now apply IH].
Qed.

Lemma split_go_words (s cur : string) :
  spaceless cur -> Forall word (split_go cur s).
Proof.
  revert cur. induction s as [|c t IH]; intros cur Hcur; cbn [split_go].
  - destruct (String.eqb_spec cur ""); repeat constructor; assumption.
  - destruct (isspace c) eqn:E.
    + destruct (String.eqb_spec cur "").
      * apply IH, spaceless_empty.
      * constructor; [now split | apply IH, spaceless_empty].
    + apply IH, spaceless_snoc; assumption.
Qed.

Lemma split_go_spaceless (w s cur : string) :
  spaceless w -> split_go cur (w +:+ s) = split_go (cur +:+ w) s.
Proof.
  revert cur. induction w as [|c w IH]; intros cur Hw.
  - now rewrite append_nil, append_empty_r.
  - apply spaceless_inv in Hw as [Hc Hw].
    rewrite append_cons. cbn [split_go]. rewrite Hc, (IH _ Hw).
    now rewrite append_assoc.
Qed.

(** [s.split()] of the words joined with single spaces gives the words
    back. *)
Lemma split_join (ws : list string) :
  Forall word ws -> split (join " " ws) = ws.
Proof.
  induction 1 as [|w ws [Hne Hw] Hws IH]; [reflexivity |].
  unfold split in *. destruct ws as [|w' ws].
  - cbn [join]. rewrite <- (append_empty_r w) at 1.
    rewrite (split_go_spaceless w "" "" Hw), append_nil. cbn [split_go].
    apply String.eqb_neq in Hne. now rewrite Hne.
  - change (join " " (w :: w' :: ws))
      with (w +:+ String SP (join " " (w' :: ws))).
    rewrite (split_go_spaceless w _ "" Hw), append_nil. cbn [split_go].
    change (isspace SP) with true. cbv iota.
    apply String.eqb_neq in Hne. rewrite Hne. now rewrite IH.
Qed.

Lemma normalize_twice (bigString : string) :
  normalize (normalize bigString) = normalize bigString.
Proof.
  unfold normalize. rewrite split_join; [reflexivity |].
  apply split_go_words, spaceless_empty.
Qed.

(** X5. The canonical string is canonical: joining its words again, or
    collapsing and stripping its whitespace, gives the same string. *)
Theorem normalize_is_idempotent (bigString : string) :
  normalize (normalize bigString) = normalize bigString
  /\ strip (collapse_runs (normalize bigString)) = normalize bigString.
Proof.
  split; [apply normalize_twice |].
  rewrite <- normalize_strip_collapse. apply normalize_twice.
Qed.

End WordFacts.

(** ** calculate_digest as a scan, and what it does without sentinels *)

Section ScanFacts.

Import PyStr Compositor Shape SpecWords.

(** X3. The loop of calculate_digest over the indices, which assigns to
    [lines[i]] in place, ends with the locals and the lines of the scan of
    the lines from first to last, and the lines are those of the four-phase
    scan: before the span, on the classifier, inside the span, after it. *)
Theorem loop_is_four_phase_scan (lines : list string) (cotString : string) :
  calculate_digest_loop lines cotString = scan cotString initial lines
  /\ calculate_digest lines cotString = before_span cotString lines.
Proof.
  split.
  - unfold calculate_digest_loop.
    rewrite (iterations_scan cotString lines [] initial
             : fold_left _ (seq 0 _) (_, lines) = _).
    now destruct (scan cotString initial lines).
  - unfold calculate_digest, calculate_digest_loop.
    rewrite (iterations_scan cotString lines [] initial
             : fold_left _ (seq 0 _) (_, lines) = _).
    apply scan_before_span.
Qed.

(** X2. A document without a line that has 'BT' and a newline after it is
    returned as it is, whatever the payload: nothing is spliced and no
    digest is written. *)
Theorem no_sentinel_no_change (lines : list string) (cotString : string) :
  no_sentinel lines -> calculate_digest lines cotString = lines.
Proof.
  intros H. rewrite calculate_digest_phases.
  rewrite <- (app_nil_r lines) at 1.
  rewrite before_span_pre by assumption. apply app_nil_r.
Qed.

Lemma no_sentinel_no_change_witness :
  no_sentinel [ln "SUBJ/COTXML//"; ln "GENTEXT/REMARKS/-//"; ln "[DIGEST:]"]
  /\ calculate_digest
       [ln "SUBJ/COTXML//"; ln "GENTEXT/REMARKS/-//"; ln "[DIGEST:]"] "x"
     = [ln "SUBJ/COTXML//"; ln "GENTEXT/REMARKS/-//"; ln "[DIGEST:]"].
Proof.
  assert (H : no_sentinel
                [ln "SUBJ/COTXML//"; ln "GENTEXT/REMARKS/-//"; ln "[DIGEST:]"])
    by (repeat constructor).
  split; [exact H | apply no_sentinel_no_change, H].
Defined.

Lemma after_span_map (post : list string) (big : string) :
  after_span big post
  = map (fun l => if contains DIGEST_MARK l
                  then digest_line (md5_upper (normalize big)) else l) post.
Proof.
  revert big. induction post as [|l r IH]; intros big; [reflexivity |].
  cbn [after_span map]. destruct (contains DIGEST_MARK l).
  - rewrite IH. now rewrite normalize_twice.
  - now rewrite IH.
Qed.

End ScanFacts.

Section DigestFacts.

Import PyStr Compositor Shape SpecWords.

(** X4. In a template with both sentinels, every line after the end
    sentinel that contains '[DIGEST:' is rewritten, and all of them to the
    same digest line, that of the canonical string of the spliced span; the
    other lines after the end sentinel are kept. *)
Theorem every_digest_line_gets_the_digest
    (pre span post : list string) (s c e P : string) :
  no_sentinel pre -> contains BT_LINE s = true ->
  no_sentinel span -> contains BT_LINE e = true ->
  calculate_digest (pre ++ s :: c :: span ++ e :: post) P
  = pre ++ s :: c :: splice P span ++ e
        :: map (fun l =>
                  if contains DIGEST_MARK l
                  then "[DIGEST:"
                         +:+ upper (MD5.hexdigest (utf8
                               (normalize (concat_lines (splice P span)))))
                         +:+ "]" +:+ NL
                  else l) post.
Proof.
  intros Hpre Hs Hspan He.
  rewrite calculate_digest_closed by assumption.
  now rewrite after_span_map.
Qed.

Lemma every_digest_line_gets_the_digest_witness :
  calculate_digest
    ([] ++ ln "BT" :: ln "UNCLAS" :: [ln "GENTEXT/REMARKS/-//"]
        ++ ln "BT" :: [ln "[DIGEST:]"; ln "#1"; ln "[DIGEST:old]"]) "x"
  = [ln "BT"; ln "UNCLAS"; ln "GENTEXT/REMARKS/x//"; ln "BT";
     ln "[DIGEST:E0762C99BD4791AFDC2C3D2E79677D6B]"; ln "#1";
     ln "[DIGEST:E0762C99BD4791AFDC2C3D2E79677D6B]"].
Proof.
  etransitivity.
  - apply (every_digest_line_gets_the_digest
             [] [ln "GENTEXT/REMARKS/-//"]
             [ln "[DIGEST:]"; ln "#1"; ln "[DIGEST:old]"]
             (ln "BT") (ln "UNCLAS") (ln "BT") "x");
      try (vm_compute; reflexivity); repeat constructor.
  - vm_compute. reflexivity.
Defined.

Lemma split_go_at_space (a b cur : string) (c : ascii) :
  isspace c = true ->
  split_go cur (a +:+ String c b) = split_go cur a ++ split b.
Proof.
  intros Hc. revert cur. induction a as [|x a IH]; intros cur.
  - rewrite append_nil. cbn [split_go]. rewrite Hc.
    now destruct (String.eqb cur "").
  - rewrite append_cons. cbn [split_go]. destruct (isspace x).
    + rewrite IH. now destruct (String.eqb cur "").
    + apply IH.
Qed.

Lemma replace_char_append (a b : ascii) (s t : string) :
  replace_char a b (s +:+ t) = replace_char a b s +:+ replace_char a b t.
Proof.
  induction s as [|x s IH]; [reflexivity |].
  rewrite append_cons. cbn [replace_char]. rewrite append_cons.
  f_equal. exact IH.
Qed.

Lemma split_concat_lines (span : list string) :
  Forall (fun l => exists body, l = body +:+ NL) span ->
  split (concat_lines span)
  = concat (map (fun l => split (replace_char LF SP l)) span).
Proof.
  induction 1 as [|l span [body ->] _ IH]; [reflexivity |].
  cbn [concat_lines fold_right map concat].
  fold (concat_lines span). rewrite <- IH.
  rewrite replace_char_append.
  change (replace_char LF SP NL) with (String SP "").
  rewrite append_assoc, append_cons, append_nil. unfold split.
  rewrite !(split_go_at_space _ _ "" SP eq_refl).
  cbn [split split_go String.eqb]. now rewrite app_nil_r.
Qed.

(** X6. When every span line ends with its newline, the canonical string
    is the words of the span lines, line after line, joined with single
    spaces: where the lines break does not matter to the digest. *)
Theorem canonical_string_is_the_words (span : list string) :
  Forall (fun l => exists body, l = body +:+ NL) span ->
  normalize (concat_lines span)
  = join " " (concat (map (fun l => split (replace_char LF SP l)) span)).
Proof. intros H. unfold normalize. now rewrite split_concat_lines. Qed.

Lemma canonical_string_is_the_words_witness :
  Forall (fun l => exists body, l = body +:+ NL) [ln "a  b"; ln " c"]
  /\ normalize (concat_lines [ln "a  b"; ln " c"]) = "a b c".
Proof.
  assert (H : Forall (fun l => exists body, l = body +:+ NL)
                [ln "a  b"; ln " c"]).
  { repeat constructor; eexists; reflexivity. }
  split; [exact H |].
  rewrite (canonical_string_is_the_words _ H). vm_compute. reflexivity.
Defined.

(** X1. A document is a blank CoT template exactly when some line has the
    subject marker and some line, the same or another, before or after, has
    the blank-remarks marker. *)
Theorem is_cot_template_iff (lines : list string) :
  is_cot_template lines = true
  <-> (exists l, In l lines /\ contains SUBJECT l = true)
      /\ (exists l, In l lines /\ contains BLANK_REMARKS l = true).
Proof.
  rewrite is_cot_template_spec, andb_true_iff, !existsb_exists. reflexivity.
Qed.

End DigestFacts.

(** ** The CoT XML listeners, datagram by datagram *)

Section ListenerFacts.

Import PyStr PySplit Mailbox.

Lemma contains_NL_has_char (s : string) : contains NL s = has_char LF s.
Proof.
  induction s as [|c t IH]; [reflexivity |].
  rewrite contains_cons, IH. cbn [has_char String.prefix NL].
  destruct (ascii_dec LF c) as [<- | Hne].
  - destruct t; reflexivity.
  - apply not_eq_sym, Ascii.eqb_neq in Hne. now rewrite Hne.
Qed.

Lemma split_char_go_head (sep : ascii) (s cur : string) :
  exists y r, split_char_go sep cur s = y :: r.
Proof.
  revert cur. induction s as [|c t IH]; intros cur; cbn [split_char_go].
  - now eauto.
  - destruct (Ascii.eqb c sep); [now eauto | apply IH].
Qed.

Lemma split_char_go_two (s cur : string) :
  has_char LF s = true ->
  exists x y r, split_char_go LF cur s = x :: y :: r.
Proof.
  revert cur. induction s as [|c t IH]; intros cur H; [discriminate H |].
  cbn [has_char] in H. cbn [split_char_go]. destruct (Ascii.eqb c LF).
  - destruct (split_char_go_head LF t "") as (y & r & ->). now eauto.
  - apply IH. exact H.
Qed.

Lemma second_line_exists (d : string) :
  contains NL d = true <-> exists x, split_char LF d !! 1 = Some x.
Proof.
  rewrite contains_NL_has_char. unfold split_char. split.
  - intros H. destruct (split_char_go_two d "" H) as (x & y & r & ->).
    now exists y.
  - intros [x Hx]. destruct (has_char LF d) eqn:E; [reflexivity |].
    rewrite <- contains_NL_has_char in E.
    rewrite (split_char_go_one_line d "" E) in Hx. discriminate Hx.
Qed.

(** Once decoded, a datagram raises exactly when it has the event marker
    and no newline, and what it raises is IndexError, at [xml[1]]. *)
Lemma decoded_datagram_raises (d : string) (e : exn) :
  (forall m, on_datagram d m = Raise e
             <-> e = IndexError /\ contains EVENT_HEADER d = true
                 /\ contains NL d = false)
  /\ (forall m, on_datagram_nogui d m = Raise e
                <-> e = IndexError /\ contains EVENT_HEADER d = true
                    /\ contains NL d = false)
  /\ (forall w, on_datagram_gui d w = Raise e
                <-> e = IndexError /\ contains EVENT_HEADER d = true
                    /\ contains NL d = false).
Proof.
  assert (Hmm : forall m, on_datagram d m = Raise e
             <-> e = IndexError /\ contains EVENT_HEADER d = true
                 /\ contains NL d = false).
  { intros m. unfold on_datagram, index.
    destruct (contains EVENT_HEADER d); cbn [negb].
    2:{ split; [discriminate | now intros (_ & ? & _)]. }
    destruct (contains NL d) eqn:En.
    - apply second_line_exists in En as [x Hx]. rewrite Hx. cbn.
      split; [| now intros (_ & _ & ?)].
      destruct (_ && _); [discriminate |]. destruct (_ && _); discriminate.
    - destruct (split_char LF d !! 1) as [x|] eqn:Hx.
      + assert (contains NL d = true) by (apply second_line_exists; eauto).
        congruence.
      + cbn. split; [now intros [= <-] | now intros (-> & _)]. }
  split; [exact Hmm |].
  split; [intros m; rewrite on_datagram_nogui_eq; apply Hmm |].
  intros w. unfold on_datagram_gui, is_cot_xml, is_pd_event, is_sa_event, index.
  rewrite !if_true_false.
  destruct (contains EVENT_HEADER d); cbn [negb].
  2:{ split; [discriminate | now intros (_ & ? & _)]. }
  destruct (contains NL d) eqn:En.
  - apply second_line_exists in En as [x Hx]. rewrite Hx. cbn.
    split; [| now intros (_ & _ & ?)].
    rewrite !if_true_false.
    destruct (contains PD_EVENT_TYPE x); [discriminate |].
    destruct (contains SA_EVENT_TYPE x); discriminate.
  - destruct (split_char LF d !! 1) as [x|] eqn:Hx.
    + assert (contains NL d = true) by (apply second_line_exists; eauto).
      congruence.
    + cbn. split; [now intros [= <-] | now intros (-> & _)].
Qed.

Lemma on_recv_raises (S : Type) (step : string -> S -> result S)
    (P : string -> Prop) (data : Receive.datagram) (e : exn) (s : S) :
  (forall d, step d s = Raise e <-> e = IndexError /\ P d) ->
  Receive.on_recv step data s = Raise e
  <-> (data = Receive.NotUtf8 /\ e = UnicodeDecodeError)
      \/ (exists d, data = Receive.Utf8 d /\ e = IndexError /\ P d).
Proof.
  intros Hstep. destruct data as [d |]; cbn [Receive.on_recv].
  - rewrite Hstep. split.
    + intros H. right. now exists d.
    + intros [[H _] | (d' & [= <-] & H)]; [discriminate H | exact H].
  - split.
    + intros [= <-]. now left.
    + intros [[_ ->] | (d' & H & _)]; [reflexivity | discriminate H].
Qed.

(** X7. When [recvfrom] has returned a datagram, the statements of the
    [try] of cotXmlListener raise, in each variant, in exactly two cases:
    the bytes are not UTF-8 and [data.decode] raises UnicodeDecodeError, or
    the decoded text has the event marker and no newline and [xml[1]] raises
    IndexError. Every other datagram is handled. *)
Theorem datagram_raises_iff (data : Receive.datagram) (e : exn) :
  let raises :=
    (data = Receive.NotUtf8 /\ e = UnicodeDecodeError)
    \/ (exists d, data = Receive.Utf8 d /\ e = IndexError
                  /\ contains EVENT_HEADER d = true
                  /\ contains NL d = false) in
  (forall m, Receive.on_recv on_datagram data m = Raise e <-> raises)
  /\ (forall m, Receive.on_recv on_datagram_nogui data m = Raise e <-> raises)
  /\ (forall w, Receive.on_recv on_datagram_gui data w = Raise e <-> raises).
Proof.
  cbv zeta.
  split; [| split]; intros x; apply on_recv_raises; intros d;
    apply (decoded_datagram_raises d e).
Qed.

(** X8. In tak2mm.py and tak2msc-nogui.py a datagram changes at most one
    slot. The PointDrop slot changes only to an event line with the
    point-drop marker. The Position slot changes only to an event line with
    the position marker, and this line has no point-drop marker or found the
    PointDrop slot taken. *)
Theorem datagram_changes_one_slot (d : string) (m m' : slots) :
  on_datagram d m = Ok m' \/ on_datagram_nogui d m = Ok m' ->
  (myPosition_event m' = myPosition_event m
   \/ pointDropper_event m' = pointDropper_event m)
  /\ (pointDropper_event m' <> pointDropper_event m ->
      split_char LF d !! 1 = Some (pointDropper_event m')
      /\ contains PD_EVENT_TYPE (pointDropper_event m') = true)
  /\ (myPosition_event m' <> myPosition_event m ->
      split_char LF d !! 1 = Some (myPosition_event m')
      /\ contains SA_EVENT_TYPE (myPosition_event m') = true
      /\ (contains PD_EVENT_TYPE (myPosition_event m') = false
          \/ pointDropper_event m <> "")).
Proof.
  rewrite on_datagram_nogui_eq. intros H.
  assert (H' : on_datagram d m = Ok m') by now destruct H.
  clear H. revert H'. unfold on_datagram, index.
  destruct (negb (contains EVENT_HEADER d)).
  { intros [= <-]. split; [now left | split; congruence]. }
  destruct (split_char LF d !! 1) as [x1|]; cbn; [| discriminate].
  destruct (contains PD_EVENT_TYPE x1) eqn:Epd;
    destruct (pointDropper_event m =? "")%string eqn:Es; cbn [andb].
  - intros [= <-]. cbn. split; [now left | split; [now split | congruence]].
  - destruct (contains SA_EVENT_TYPE x1 && (myPosition_event m =? "")%string)
      eqn:Esa; intros [= <-]; cbn.
    + apply andb_true_iff in Esa as [Esa _]. apply String.eqb_neq in Es.
      split; [now right | split; [congruence |]].
      intros _. repeat split; auto.
    + split; [now left | split; congruence].
  - destruct (contains SA_EVENT_TYPE x1 && (myPosition_event m =? "")%string)
      eqn:Esa; intros [= <-]; cbn.
    + apply andb_true_iff in Esa as [Esa _].
      split; [now right | split; [congruence |]].
      intros _. repeat split; auto.
    + split; [now left | split; congruence].
  - destruct (contains SA_EVENT_TYPE x1 && (myPosition_event m =? "")%string)
      eqn:Esa; intros [= <-]; cbn.
    + apply andb_true_iff in Esa as [Esa _].
      split; [now right | split; [congruence |]].
      intros _. repeat split; auto.
    + split; [now left | split; congruence].
Qed.

Lemma datagram_changes_one_slot_witness :
  let d := Samples.datagram (Samples.friendly_point_drop_event "2") in
  let m := Slots "" (Samples.point_drop_event "1") in
  let m' := Slots (Samples.friendly_point_drop_event "2")
                  (Samples.point_drop_event "1") in
  on_datagram d m = Ok m'
  /\ (myPosition_event m' = myPosition_event m
      \/ pointDropper_event m' = pointDropper_event m).
Proof.
  cbv zeta.
  assert (H : on_datagram
                (Samples.datagram (Samples.friendly_point_drop_event "2"))
                (Slots "" (Samples.point_drop_event "1"))
              = Ok (Slots (Samples.friendly_point_drop_event "2")
                      (Samples.point_drop_event "1")))
    by (vm_compute; reflexivity).
  split; [exact H |].
  exact (proj1 (datagram_changes_one_slot _ _ _ (or_introl H))).
Defined.

Lemma on_datagram_keeps_pending (c : category) (d : string) (m m' : slots) :
  on_datagram d m = Ok m' -> slot c m <> "" -> slot c m' = slot c m.
Proof.
  intros H Hne.
  destruct (on_datagram_cases _ _ _ H)
    as [-> | [(x1 & Hx & He & ->) | (x1 & Hx & He & ->)]];
    destruct c; cbn [slot myPosition_event pointDropper_event] in *;
    congruence.
Qed.

(** X9. In tak2mm.py and tak2msc-nogui.py an event that is pending in a
    slot stays there whatever datagrams arrive, well formed or not, until it
    is consumed: also when one of them ends the listener. *)
Theorem pending_event_survives (c : category) (ds : list string) (m : slots) :
  slot c m <> "" ->
  slot c (state_after (listen on_datagram ds m)) = slot c m
  /\ slot c (state_after (listen on_datagram_nogui ds m)) = slot c m.
Proof.
  intros Hne.
  assert (Hmm : slot c (state_after (listen on_datagram ds m)) = slot c m).
  { revert m Hne. induction ds as [|d ds IH]; intros m Hne; [reflexivity |].
    cbn [listen]. destruct (on_datagram d m) as [m1|e] eqn:E; [| reflexivity].
    pose proof (on_datagram_keeps_pending c d m m1 E Hne) as H1.
    rewrite IH by congruence. exact H1. }
  split; [exact Hmm |].
  replace (listen on_datagram_nogui ds m) with (listen on_datagram ds m);
    [exact Hmm |].
  clear. revert m. induction ds as [|d ds IH]; intros m; [reflexivity |].
  cbn [listen]. rewrite on_datagram_nogui_eq.
  destruct (on_datagram d m); [apply IH | reflexivity].
Qed.

Lemma pending_event_survives_witness :
  slot PointDrop (Slots "" (Samples.point_drop_event "1")) <> ""
  /\ slot PointDrop
       (state_after
          (listen on_datagram
             [Samples.datagram (Samples.point_drop_event "2");
              "no event here"; Samples.position_event "3"]
             (Slots "" (Samples.point_drop_event "1"))))
     = Samples.point_drop_event "1".
Proof.
  assert (H : slot PointDrop (Slots "" (Samples.point_drop_event "1")) <> "")
    by (vm_compute; discriminate).
  split; [exact H |].
  exact (proj1 (pending_event_survives PointDrop _ _ H)).
Defined.

(** X10. In tak2msc.py a datagram that is handled either changes nothing
    or stores the event line, its second line, for the category of the line
    (the point-drop marker first): the variable and the status of that
    category are set, the other category and the addresses are untouched. *)
Theorem gui_datagram_stores_by_category (d : string) (w w' : window) :
  on_datagram_gui d w = Ok w' ->
  w' = w
  \/ exists event c,
       split_char LF d !! 1 = Some event /\ classify event = Some c
       /\ w' = stored c event w.
Proof.
  unfold on_datagram_gui, is_cot_xml, is_pd_event, is_sa_event, index, classify.
  rewrite !if_true_false.
  destruct (negb (contains EVENT_HEADER d)); [intros [= <-]; now left |].
  destruct (split_char LF d !! 1) as [x|]; cbn; [| discriminate].
  rewrite !if_true_false.
  destruct (contains PD_EVENT_TYPE x) eqn:Epd.
  - intros [= <-]. right. exists x, PointDrop. rewrite Epd. now repeat split.
  - destruct (contains SA_EVENT_TYPE x) eqn:Esa.
    + intros [= <-]. right. exists x, Position. rewrite Epd, Esa.
      now repeat split.
    + intros [= <-]. now left.
Qed.

Lemma gui_datagram_stores_by_category_witness :
  on_datagram_gui (Samples.datagram (Samples.position_event "1"))
    Samples.window0
  = Ok (stored Position (Samples.position_event "1") Samples.window0)
  /\ (stored Position (Samples.position_event "1") Samples.window0
      = Samples.window0
      \/ exists event c,
           split_char LF (Samples.datagram (Samples.position_event "1")) !! 1
           = Some event /\ classify event = Some c
           /\ stored Position (Samples.position_event "1") Samples.window0
              = stored c event Samples.window0).
Proof.
  assert (H : on_datagram_gui (Samples.datagram (Samples.position_event "1"))
                Samples.window0
              = Ok (stored Position (Samples.position_event "1")
                      Samples.window0)) by (vm_compute; reflexivity).
  split; [exact H | exact (gui_datagram_stores_by_category _ _ _ H)].
Defined.

End ListenerFacts.

Section TwoLines.

Import PyStr PySplit Mailbox.

Lemma split_char_go_line (x rest cur : string) :
  contains NL x = false ->
  split_char_go LF cur (x +:+ NL +:+ rest)
  = (cur +:+ x) :: split_char_go LF "" rest.
Proof.
  revert cur. induction x as [|c x IH]; intros cur H.
  - rewrite append_nil, append_empty_r. reflexivity.
  - apply contains_NL_cons in H as [Hc Hx].
    rewrite append_cons. cbn [split_char_go]. rewrite Hc, (IH _ Hx).
    now rewrite append_assoc.
Qed.

Lemma contains_append_r (sub a b : string) :
  contains sub b = true -> contains sub (a +:+ b) = true.
Proof.
  intros H. apply contains_spec in H as (x & y & ->).
  apply contains_spec. exists (a +:+ x), y. now rewrite append_assoc.
Qed.

(** A datagram made of a first line, a newline, the event line, and
    nothing more or a newline and more, deposits the event line. *)
Lemma two_lines_deposit (c : category) (header event more : string) :
  contains NL header = false -> contains NL event = false ->
  more = "" \/ (exists t, more = NL +:+ t) ->
  contains EVENT_HEADER event = true -> classify event = Some c ->
  deposit_of c event (header +:+ NL +:+ event +:+ more).
Proof.
  intros Hh He Hm Hev Hc. split; [| split; [| exact Hc]].
  - apply contains_append_r, contains_append_r.
    apply contains_spec in Hev as (x & y & ->).
    apply contains_spec. exists x, (y +:+ more). now rewrite !append_assoc.
  - unfold split_char. rewrite (split_char_go_line header _ "" Hh).
    destruct Hm as [-> | [t ->]].
    + rewrite append_empty_r.
      now rewrite (split_char_go_one_line event "" He).
    + now rewrite (split_char_go_line event t "" He).
Qed.

(** X11. A datagram of two lines, any first line without a newline and an
    event line with the event marker, is never refused: in tak2mm.py and
    tak2msc-nogui.py the event line, as it is, is in the slot of its
    category afterwards if the slot was empty, and in tak2msc.py it is in
    the variable of its category, ready to send. *)
Theorem two_line_datagram_is_stored
    (c : category) (header event : string) (m : slots) (w : window) :
  contains NL header = false -> contains NL event = false ->
  contains EVENT_HEADER event = true -> classify event = Some c ->
  slot c m = "" ->
  (exists m', on_datagram (header +:+ NL +:+ event) m = Ok m'
              /\ on_datagram_nogui (header +:+ NL +:+ event) m = Ok m'
              /\ slot c m' = event)
  /\ on_datagram_gui (header +:+ NL +:+ event) w = Ok (stored c event w).
Proof.
  intros Hh He Hev Hc Hs.
  assert (Hd : deposit_of c event (header +:+ NL +:+ event)).
  { rewrite <- (append_empty_r event) at 2.
    apply two_lines_deposit; auto. }
  split; [| now apply on_datagram_gui_deposit].
  destruct (on_datagram_deposit c event _ m Hd) as (m' & Hm' & Hslot).
  exists m'. rewrite on_datagram_nogui_eq.
  rewrite Hs in Hslot. now repeat split.
Qed.

Lemma two_line_datagram_is_stored_witness :
  exists m',
    on_datagram (Bridge.XML_HEADER +:+ NL +:+ Samples.position_event "1")
      (Slots "" "") = Ok m'
    /\ slot Position m' = Samples.position_event "1".
Proof.
  destruct (two_line_datagram_is_stored Position Bridge.XML_HEADER
              (Samples.position_event "1") (Slots "" "") Samples.window0)
    as [(m' & Hm & _ & Hs) _]; try (vm_compute; reflexivity).
  exists m'. now split.
Defined.

End TwoLines.

(** ** The control-channel listener of tak2mm.py *)

Section UnwrapFacts.

Import PyStr PySplit Bridge Unwrap.

Lemma split_str_go_before (sep a rest cur : string) :
  begins_in sep a rest = false ->
  split_str_go sep 0 cur (a +:+ rest) = split_str_go sep 0 (cur +:+ a) rest.
Proof.
  revert cur. induction a as [|c t IH]; intros cur H.
  - now rewrite append_nil, append_empty_r.
  - cbn [begins_in] in H. apply orb_false_iff in H as [Hp Ht].
    rewrite append_cons in Hp |- *. cbn [split_str_go]. rewrite Hp.
    rewrite (IH _ Ht). now rewrite append_assoc.
Qed.

Lemma split_str_go_skip (sep x rest cur : string) :
  split_str_go sep (String.length x) cur (x +:+ rest)
  = split_str_go sep 0 cur rest.
Proof.
  induction x as [|c x IH]; [now destruct rest |].
  rewrite append_cons. cbn [String.length split_str_go]. exact IH.
Qed.

Lemma split_str_go_at (c0 : ascii) (t0 rest cur : string) :
  split_str_go (String c0 t0) 0 cur (String c0 t0 +:+ rest)
  = cur :: split_str_go (String c0 t0) 0 "" rest.
Proof.
  pose proof (prefix_append (String c0 t0) rest) as Hp.
  rewrite append_cons in Hp |- *. cbn [split_str_go]. rewrite Hp.
  replace (String.length (String c0 t0) - 1) with (String.length t0)
    by (cbn [String.length]; lia).
  apply f_equal, split_str_go_skip.
Qed.

Lemma split_str_go_head (sep s cur : string) :
  exists x r, split_str_go sep 0 cur s = (cur +:+ x) :: r.
Proof.
  revert cur. induction s as [|c t IH]; intros cur.
  - exists "", []. cbn. now rewrite append_empty_r.
  - cbn [split_str_go]. destruct (String.prefix sep (String c t)).
    + exists "". eexists. now rewrite append_empty_r.
    + destruct (IH (cur +:+ String c "")) as (x & r & ->).
      exists (String c x), r. now rewrite append_assoc.
Qed.

Lemma prefix_longer (p x r : string) :
  String.length p <= String.length x ->
  String.prefix p (x +:+ r) = String.prefix p x.
Proof.
  revert x. induction p as [|a p IH]; intros x H.
  - now destruct x, r.
  - destruct x as [|b x]; [cbn in H; lia |].
    rewrite append_cons. cbn [String.prefix].
    destruct (ascii_dec a b); [| reflexivity].
    apply IH. cbn in H. lia.
Qed.

Lemma length_append (a b : string) :
  String.length (a +:+ b) = String.length a + String.length b.
Proof.
  induction a as [|c a IH]; [reflexivity |].
  rewrite append_cons. cbn [String.length]. now rewrite IH.
Qed.

(** Whether [sep] begins inside [a] does not depend on what follows a
    [sep] that comes right after [a]. *)
Lemma begins_in_before_sep (sep a r r' : string) :
  begins_in sep a (sep +:+ r) = begins_in sep a (sep +:+ r').
Proof.
  induction a as [|c a IH]; [reflexivity |].
  cbn [begins_in]. rewrite IH. f_equal.
  rewrite <- !append_assoc.
  rewrite !(prefix_longer sep (String c a +:+ sep)); [reflexivity | |];
    rewrite length_append; cbn [String.length]; lia.
Qed.

(** X12. The two splits of cpListener return the text between the first
    'GENTEXT/REMARKS/' of the payload and the first '//' after it, provided
    no 'GENTEXT/REMARKS/' begins in between: so they give back the event
    that calculate_digest wrapped into its remarks line, when the event has
    neither of the two in it. *)
Theorem extract_remarks_between (a event b : string) :
  begins_in "GENTEXT/REMARKS/" a
    ("GENTEXT/REMARKS/" +:+ event +:+ "//" +:+ b) = false ->
  begins_in "GENTEXT/REMARKS/" event ("//" +:+ b) = false ->
  begins_in "//" event ("//" +:+ b) = false ->
  extract_remarks (a +:+ "GENTEXT/REMARKS/" +:+ event +:+ "//" +:+ b)
  = Ok event.
Proof.
  intros Ha Hm Hs. unfold extract_remarks, split_str, index.
  rewrite (split_str_go_before _ a _ "" Ha), append_nil.
  rewrite (split_str_go_at "G" "ENTEXT/REMARKS/").
  rewrite lookup_cons. cbv beta iota.
  rewrite (split_str_go_before _ event _ "" Hm), append_nil.
  change ("//" +:+ b) with (String "/" (String "/" b)).
  cbn [split_str_go String.prefix].
  destruct (ascii_dec "G" "/") as [Hbad|_]; [discriminate Hbad |].
  destruct (split_str_go_head "GENTEXT/REMARKS/" b
              ((event +:+ "/") +:+ "/")) as (x & r & ->).
  rewrite lookup_cons. cbn.
  rewrite !append_assoc.
  change ("/" +:+ "/" +:+ x) with ("//" +:+ x).
  rewrite (begins_in_before_sep "//" event b x) in Hs.
  rewrite (split_str_go_before _ event _ "" Hs), append_nil.
  rewrite (split_str_go_at "/" "/"). reflexivity.
Qed.

Lemma extract_remarks_between_witness :
  extract_remarks
    (ln "SUBJ/COTXML//" +:+ ln "BT" +:+ ln "UNCLAS"
       +:+ Compositor.remarks_line (Samples.position_event "1")
       +:+ ln "BT")
  = Ok (Samples.position_event "1").
Proof.
  apply (extract_remarks_between
           (ln "SUBJ/COTXML//" +:+ ln "BT" +:+ ln "UNCLAS")
           (Samples.position_event "1") (NL +:+ ln "BT"));
    vm_compute; reflexivity.
Defined.

(** The 'data' branch of the if/elif chain does these two splits. *)
Lemma dispatch_data_unwraps (names : gmap string string)
    (p data_from_cp : string) :
  dispatch names (Some "data") (Some p) data_from_cp
  = (header ← global names "COT_EVENT_HEADER";
     if contains header p then
       if contains "GENTEXT/REMARKS/" p then
         p2 ← extract_remarks p;
         tak ← global names "TAK_XML_HEADER";
         Ok (Some p2, tak +:+ NL +:+ p2)
       else Ok (Some p, data_from_cp)
     else Ok (Some p, data_from_cp)).
Proof.
  unfold dispatch, extract_remarks. cbn [is_str String.eqb].
  change (is_str (Some "data") "status") with false.
  change (is_str (Some "data") "config") with false.
  change (is_str (Some "data") "ack") with false.
  change (is_str (Some "data") "data") with true. cbv iota.
  destruct (global names "COT_EVENT_HEADER") as [h|]; [| reflexivity].
  cbn. destruct (contains h p); [| reflexivity].
  destruct (contains "GENTEXT/REMARKS/" p); [| reflexivity].
  destruct (index (split_str "GENTEXT/REMARKS/" p) 1); reflexivity.
Qed.

Lemma dispatch_not_data (names : gmap string string)
    (command_ payload : option string) (data_from_cp : string) :
  is_str command_ "data" = false ->
  dispatch names command_ payload data_from_cp = Ok (payload, data_from_cp).
Proof.
  intros H. unfold dispatch. rewrite H.
  destruct (is_str command_ "status"), (is_str command_ "config"),
    (is_str command_ "ack"); reflexivity.
Qed.

Lemma read_record_command (root : element) (c p p' : option string) :
  fst (read_record root c p) = fst (read_record root c p').
Proof.
  unfold read_record. destruct (String.eqb (tag root) "V3PROTOCOL");
    [| reflexivity].
  revert c p p'. induction (children root) as [|child cs IH]; intros c p p';
    [reflexivity |].
  cbn [fold_left].
  destruct (String.eqb (tag child) "HEADER"); [apply IH |].
  destruct (String.eqb (tag child) "PAYLOAD"); apply IH.
Qed.

Lemma on_records_tak2mm (records : list (option element))
    (payload : option string) (data_from_cp : string) :
  on_records tak2mm_names records payload data_from_cp
  = if existsb is_data_record records
    then Uncaught (NameError "COT_EVENT_HEADER") data_from_cp
    else Next data_from_cp.
Proof.
  revert payload. induction records as [|[root|] rest IH]; intros payload.
  - reflexivity.
  - cbn [on_records existsb is_data_record].
    rewrite (read_record_command root (Some "") (Some "") payload).
    destruct (read_record root (Some "") payload) as [command_ payload'].
    cbn [fst]. destruct (is_str command_ "data") eqn:E.
    + destruct command_ as [x|]; [| discriminate E].
      cbn [is_str] in E. apply String.eqb_eq in E as ->. reflexivity.
    + rewrite (dispatch_not_data _ _ _ _ E). cbn [orb]. apply IH.
  - cbn [on_records existsb is_data_record orb]. apply IH.
Qed.

(** X13. In tak2mm.py a pass of cpListener ends the thread with NameError
    exactly when one of the records received is well formed and has the
    command 'data'; otherwise every record is passed over. In both cases
    [data_from_cp] is what it was: the listener never hands an event on. *)
Theorem cpListener_pass_of_tak2mm (records : list (option element))
    (data_from_cp : string) :
  cpListener_pass tak2mm_names records data_from_cp
  = if existsb is_data_record records
    then Uncaught (NameError "COT_EVENT_HEADER") data_from_cp
    else Next data_from_cp.
Proof. apply on_records_tak2mm. Qed.

End UnwrapFacts.

Section RelayFacts.

Import Mailbox Relay.

Lemma pass_keeps_nothing_held (r : received) (s : shared) :
  data_from_cp s = "" ->
  data_from_cp (pass r s) = "" /\ to_wintak (pass r s) = to_wintak s.
Proof.
  intros H. destruct r as [d | ok | records |]; cbn [pass].
  - destruct (cotXmlThread_alive s); [| now split].
    destruct (on_datagram d (mailbox s)); now split.
  - destruct (cotXmlThread_alive s); [| now split].
    unfold on_udp_timeout. rewrite H. now split.
  - destruct (cpThread_alive s); [| now split].
    unfold Bridge.cpListener_pass. rewrite on_records_tak2mm.
    destruct (existsb Unwrap.is_data_record records); now split.
  - now split.
Qed.

(** X14. In tak2mm.py nothing is ever sent to WinTAK: as long as nothing
    is held in [data_from_cp], as when the threads start, the passes of the
    two socket threads, whatever they receive and in whatever order, leave
    it empty and send no datagram. *)
Theorem nothing_is_sent_to_wintak (rs : list received) (s : shared) :
  data_from_cp s = "" ->
  data_from_cp (run rs s) = "" /\ to_wintak (run rs s) = to_wintak s.
Proof.
  unfold run. revert s. induction rs as [|r rs IH]; intros s H; [now split |].
  cbn [fold_left]. destruct (pass_keeps_nothing_held r s H) as [Hd Ht].
  destruct (IH (pass r s) Hd) as [Hd' Ht']. split; congruence.
Qed.

Lemma nothing_is_sent_to_wintak_witness :
  data_from_cp initial = ""
  /\ to_wintak
       (run [TcpRecords [Some (Samples.record "status" "")];
             UdpDatagram (Samples.datagram (Samples.position_event "1"));
             UdpTimeout true;
             TcpRecords [Some (Samples.record "data"
                                 (Samples.position_event "2"))];
             UdpTimeout true] initial)
     = [].
Proof.
  split; [reflexivity |].
  exact (proj2 (nothing_is_sent_to_wintak _ initial eq_refl)).
Defined.

End RelayFacts.

(** ** tak2mm.py: the main loop and the template listener *)

Section MainLoop.

Import PyStr Compositor Mailbox Tak2mm.

Lemma length_pos (A : Type) (l : list A) :
  l <> [] -> (0 <? length l)%nat = true.
Proof. intros H. destruct l; [congruence | reflexivity]. Qed.





(** X16. With the threads alive, a pass of the main loop of tak2mm.py
    changes nothing exactly when no template is held or no event is pending:
    an event waits in its slot for a template, and a template for an
    event. *)
Theorem main_pass_waits_iff (w : world) :
  listenerThreads_alive w = true -> templateThread_alive w = true ->
  main_pass w = Next w
  <-> lines w = []
      \/ (myPosition_event (mailbox w) = ""
          /\ pointDropper_event (mailbox w) = "").
Proof.
  intros Hl Ht. unfold main_pass, compose_pending. rewrite Hl, Ht.
  cbn [negb orb]. destruct (lines w) as [|l ls] eqn:Elines.
  - cbn. split; [now left | reflexivity].
  - cbn [length Nat.ltb Nat.leb andb].
    destruct (String.eqb_spec (myPosition_event (mailbox w)) "") as [Hp | Hp];
      cbn [negb].
    + destruct (String.eqb_spec (pointDropper_event (mailbox w)) "")
        as [Hd | Hd]; cbn [negb].
      * split; [now right | reflexivity].
      * split.
        -- intros [= H]. unfold hand_over in H. cbn in H.
           destruct (decide (_ ∈ _)); apply (f_equal lines) in H;
             cbn in H; congruence.
        -- intros [H | [_ H]]; congruence.
    + split.
      * intros [= H]. unfold hand_over in H. cbn in H.
        destruct (decide (_ ∈ _)); apply (f_equal lines) in H;
          cbn in H; congruence.
      * intros [H | [H _]]; congruence.
Qed.

Lemma main_pass_waits_iff_witness :
  let w := World true (Slots (Samples.position_event "1") "") "" []
             [] [] true true in
  main_pass w = Next w.
Proof.
  cbv zeta.
  apply (main_pass_waits_iff
           (World true (Slots (Samples.position_event "1") "") "" []
              [] [] true true)); try reflexivity.
  now left.
Defined.

(** X17. When a file of the template's name is already in the imports
    directory, the move fails: the pass of the main loop has consumed the
    event, which is lost, the template is dropped, every file of the
    hand-off directory is removed and the imports directory is as it
    was. *)
Theorem main_pass_name_taken (w : world) :
  listenerThreads_alive w = true -> templateThread_alive w = true ->
  lines w <> [] ->
  myPosition_event (mailbox w) <> "" \/ pointDropper_event (mailbox w) <> "" ->
  messageCreator_file w ∈ map fst (imports_dir w) ->
  main_pass w
  = Next (World (started w)
            (if String.eqb (myPosition_event (mailbox w)) ""
             then Slots "" ""
             else Slots "" (pointDropper_event (mailbox w)))
            "" [] [] (imports_dir w) true true).
Proof.
  intros Hl Ht Hlines Hev Htaken.
  unfold main_pass, compose_pending. rewrite Hl, Ht, (length_pos _ _ Hlines).
  cbn [negb orb andb].
  destruct (String.eqb_spec (myPosition_event (mailbox w)) "") as [Hp | Hp];
    cbn [negb].
  - destruct Hev as [Hev | Hev]; [congruence |].
    apply String.eqb_neq in Hev. rewrite Hev. cbn [negb].
    unfold hand_over. cbn.
    destruct (decide (messageCreator_file w ∈ imports_entries (imports_dir w)))
      as [_ | Hn]; [| exfalso; apply Hn; now apply list_elem_of_further].
    now rewrite Hp.
  - unfold hand_over. cbn.
    destruct (decide (messageCreator_file w ∈ imports_entries (imports_dir w)))
      as [_ | Hn]; [| exfalso; apply Hn; now apply list_elem_of_further].
    reflexivity.
Qed.

Lemma main_pass_name_taken_witness :
  let w := World true (Slots "" (Samples.point_drop_event "2"))
             "msg.txt" Samples.template
             [("msg.txt", Samples.template); ("next.txt", Samples.template)]
             [("msg.txt", [])] true true in
  main_pass w
  = Next (World true (Slots "" "") "" [] [] [("msg.txt", [])] true true).
Proof.
  cbv zeta. etransitivity.
  - apply (main_pass_name_taken
             (World true (Slots "" (Samples.point_drop_event "2"))
                "msg.txt" Samples.template
                [("msg.txt", Samples.template); ("next.txt", Samples.template)]
                [("msg.txt", [])] true true));
      try reflexivity.
    + discriminate.
    + right. vm_compute. discriminate.
    + cbn. apply list_elem_of_here.
  - reflexivity.
Defined.

End MainLoop.

Section WatcherFacts.

Import PyStr Compositor Mailbox Tak2mm.





End WatcherFacts.

Section EndToEnd.

Import PyStr PySplit Compositor Mailbox Tak2mm.





End EndToEnd.

(** ** tak2msc-nogui.py: the main loop *)

Section NoguiFacts.

Import PyStr Compositor Mailbox.







End NoguiFacts.

(** ** tak2msc.py: sending from the window *)

Section GuiFacts.

Import PyStr Compositor SpecWords Mailbox Gui.


(** With four strings from the address book every statement of lines
    320-335 goes through and the text is [message_text]. *)
Lemma build_text_strings (key tag security classifier : string)
    (src_ri dst_ri src_pla dst_pla : string) (serial : nat) (now : moment)
    (training : bool) (message old : string) :
  build_text
    (text_pieces key tag security classifier (Str src_ri) (Str dst_ri)
       (Str src_pla) (Str dst_pla) serial now training message) old
  = (message_text key tag security classifier src_ri dst_ri src_pla dst_pla
       serial now training message, None).
Proof.
  unfold message_text.
  destruct training;
    cbv [text_pieces build_text add_pieces str_of mbind result_bind app];
    rewrite append_nil, ?append_assoc, ?append_nil; reflexivity.
Qed.

(** With a cell that is not a string one of them raises TypeError. *)
Lemma build_text_not_strings (key tag security classifier : string)
    (src_ri dst_ri src_pla dst_pla : cell) (serial : nat) (now : moment)
    (training : bool) (message old : string) :
  (forall a b c d, (src_ri, dst_ri, src_pla, dst_pla)
                   <> (Str a, Str b, Str c, Str d)) ->
  exists text,
    build_text
      (text_pieces key tag security classifier src_ri dst_ri src_pla dst_pla
         serial now training message) old
    = (text, Some TypeError).
Proof.
  intros H.
  destruct src_ri as [a|], dst_ri as [b|], src_pla as [c|], dst_pla as [d|];
    try (now exfalso; apply (H a b c d));
    cbv [text_pieces build_text add_pieces str_of mbind result_bind app];
    eexists; reflexivity.
Qed.

Lemma four_strings_or_not (r : result (cell * cell * cell * cell)) :
  (exists a b c d, r = Ok (Str a, Str b, Str c, Str d))
  \/ (forall a b c d, r <> Ok (Str a, Str b, Str c, Str d)).
Proof.
  destruct r as [[[[[a|] [b|]] [c|]] [d|]] | e];
    try (right; intros; discriminate).
  left. now exists a, b, c, d.
Qed.

Lemma prepare_strings (c : category) (now : moment) (message : string)
    (p : panel) (src_ri dst_ri src_pla dst_pla : string) :
  address_cells (fromAddress_var (win p)) (toAddress_var (win p))
    (addressBookDataFrame p)
  = Ok (Str src_ri, Str dst_ri, Str src_pla, Str dst_pla) ->
  exists w2,
    setStatus c 2 (win p) = Ok w2
    /\ prepare c now message p
       = Next (Panel w2 (precedence_var p) (classification_var p)
                 (msgSerial_var p) (addressBookDataFrame p)
                 (encryptionKey_text p)
                 (fst (setPriorityTextAndGetMsgTag (precedence_var p)))
                 (fromAddress_var (win p))
                 (message_text (encryptionKey_text p)
                    (snd (setPriorityTextAndGetMsgTag (precedence_var p)))
                    (fst (getSecurityAndClassification
                            (classification_var p)))
                    (snd (getSecurityAndClassification
                            (classification_var p)))
                    src_ri dst_ri src_pla dst_pla (msgSerial_var p) now
                    (String.eqb (precedence_var p) "Training") message)).
Proof.
  intros Hc. unfold prepare.
  assert (Hs : exists w2, setStatus c 2 (win p) = Ok w2)
    by (destruct c; eexists; reflexivity).
  destruct Hs as [w2 Hs]. exists w2. split; [exact Hs |]. rewrite Hs.
  destruct (setPriorityTextAndGetMsgTag _) as [priority tag].
  destruct (getSecurityAndClassification _) as [security classifier].
  rewrite Hc, build_text_strings. reflexivity.
Qed.

Lemma prepare_not_strings (c : category) (now : moment) (message : string)
    (p : panel) :
  (forall a b c' d,
     address_cells (fromAddress_var (win p)) (toAddress_var (win p))
       (addressBookDataFrame p)
     <> Ok (Str a, Str b, Str c', Str d)) ->
  exists e p1, prepare c now message p = Uncaught e p1
               /\ msgSerial_var p1 = msgSerial_var p.
Proof.
  intros Hc. unfold prepare.
  destruct (setStatus c 2 (win p)) as [w2 | e]; [| now exists e, p].
  destruct (setPriorityTextAndGetMsgTag _) as [priority tag].
  destruct (getSecurityAndClassification _) as [security classifier].
  destruct (address_cells _ _ _) as [[[[src_ri dst_ri] src_pla] dst_pla] | e].
  - destruct (build_text_not_strings (encryptionKey_text p) tag security
                classifier src_ri dst_ri src_pla dst_pla (msgSerial_var p) now
                (String.eqb (precedence_var p) "Training") message
                (data_text p)) as [text ->].
    + intros a b c' d [= -> -> -> ->]. now apply (Hc a b c' d).
    + eexists _, _. split; reflexivity.
  - eexists _, _. split; reflexivity.
Qed.



(** X24. An event is sent at most once: after a press that returned
    True the status of that category is MESSAGE SENT, so another press
    for it returns False, sends nothing and changes nothing, whatever
    the time and the connection. *)
Theorem sent_event_is_not_sent_again
    (c : category) (now : moment) (delivered : bool) (p p' : panel)
    (sent : option string) :
  sendToMsgMachine c now delivered p = (p', true, sent) ->
  forall (now' : moment) (delivered' : bool),
    sendToMsgMachine c now' delivered' p' = (p', false, None).
Proof.
  unfold sendToMsgMachine at 1.
  destruct (message_to_send c (win p)) as [message|]; [| discriminate].
  destruct (four_strings_or_not
              (address_cells (fromAddress_var (win p)) (toAddress_var (win p))
                 (addressBookDataFrame p)))
    as [(a & b & c0 & d & Hc) | Hc].
  2:{ destruct (prepare_not_strings c now message p Hc) as (e & p1 & -> & _).
      discriminate. }
  destruct (prepare_strings c now message p a b c0 d Hc) as (w2 & Hw & ->).
  destruct delivered; [| discriminate].
  destruct c; cbn in Hw; injection Hw as <-; cbn;
    intros [= <- _] now' delivered'; unfold sendToMsgMachine;
    unfold message_to_send; cbn;
    now destruct (_ || _).
Qed.

Lemma sent_event_is_not_sent_again_witness :
  exists p' sent,
    sendToMsgMachine Position noon true (panel_ready "<event/>")
    = (p', true, sent)
    /\ sendToMsgMachine Position noon false p' = (p', false, None).
Proof.
  set (r := sendToMsgMachine Position noon true (panel_ready "<event/>")).
  exists (fst (fst r)), (snd r).
  assert (H : r = (fst (fst r), true, snd r))
    by (vm_compute; reflexivity).
  split; [exact H |].
  exact (sent_event_is_not_sent_again Position noon true
           (panel_ready "<event/>") (fst (fst r)) (snd r) H noon false).
Defined.

(** *** The text of the window under calculate_digest *)

Lemma split_go_replace (s cur : string) :
  split_go cur (replace_char LF SP s) = split_go cur s.
Proof.
  revert cur. induction s as [|c t IH]; intros cur; [reflexivity |].
  cbn [replace_char split_go]. destruct (Ascii.eqb_spec c LF) as [-> | _].
  - change (isspace SP) with true. change (isspace LF) with true.
    cbv beta iota. now rewrite IH.
  - destruct (isspace c); now rewrite ?IH.
Qed.

Lemma normalize_one_line (message : string) :
  normalize (concat_lines [ln message]) = normalize message.
Proof.
  unfold normalize, concat_lines, ln, PyStr.split. cbn [fold_right].
  rewrite append_empty_r, replace_char_append.
  change (replace_char LF SP NL) with (String SP "").
  rewrite (split_go_at_space _ "" "" SP eq_refl).
  change (PyStr.split "") with (@nil string).
  now rewrite app_nil_r, split_go_replace.
Qed.

Lemma spaceless_no_newline (w : string) :
  Words.spaceless w -> has_char LF w = false.
Proof.
  induction w as [|c w IH]; intros H; [reflexivity |].
  apply spaceless_inv in H as [Hc Hw]. cbn [has_char]. rewrite (IH Hw).
  destruct (Ascii.eqb_spec c LF) as [-> | _]; [discriminate Hc | reflexivity].
Qed.

Lemma join_no_newline (ws : list string) :
  Forall Words.word ws -> has_char LF (join " " ws) = false.
Proof.
  induction 1 as [|w ws [_ Hw] _ IH]; [reflexivity |].
  rewrite join_cons, has_char_append, (spaceless_no_newline w Hw).
  destruct ws; [reflexivity |].
  now rewrite has_char_append, IH.
Qed.

(** A canonical string is on one line. *)
Lemma normalize_no_newline (bigString : string) :
  has_char LF (normalize bigString) = false.
Proof. apply join_no_newline, split_go_words, spaceless_empty. Qed.

(** The lines of a text that ends a line, followed by more text. *)
Lemma lines_go_append (a rest cur : string) :
  lines_go cur (a +:+ NL +:+ rest) = lines_go cur (a +:+ NL) ++ lines_go "" rest.
Proof.
  revert cur. induction a as [|x a IH]; intros cur.
  - reflexivity.
  - rewrite !append_cons. cbn [lines_go]. destruct (Ascii.eqb x LF).
    + now rewrite IH.
    + apply IH.
Qed.

Lemma lines_go_one (a cur : string) :
  has_char LF a = false -> lines_go cur (a +:+ NL) = [cur +:+ a +:+ NL].
Proof.
  revert cur. induction a as [|x a IH]; intros cur H.
  - reflexivity.
  - cbn [has_char] in H. apply orb_false_iff in H as [Hx Ha].
    rewrite append_cons. cbn [lines_go]. rewrite Hx, (IH _ Ha).
    now rewrite append_assoc.
Qed.

Lemma lines_go_ln (a rest : string) :
  has_char LF a = false ->
  lines_go "" (ln a +:+ rest) = ln a :: lines_go "" rest.
Proof.
  intros H. unfold ln. rewrite append_assoc, lines_go_append.
  now rewrite (lines_go_one a "" H).
Qed.

Lemma contains_append_l (sub a b : string) :
  contains sub a = true -> contains sub (a +:+ b) = true.
Proof.
  intros H. apply contains_spec in H as (x & y & ->).
  apply contains_spec. exists x, (y +:+ b). now rewrite !append_assoc.
Qed.

(** No line of a text has what the text does not have. *)
Lemma lines_go_without (sub text cur : string) :
  contains sub (cur +:+ text) = false ->
  Forall (fun l => contains sub l = false) (lines_go cur text).
Proof.
  revert cur. induction text as [|c t IH]; intros cur H; cbn [lines_go].
  - rewrite append_empty_r in H.
    destruct (String.eqb cur ""); repeat constructor; exact H.
  - destruct (Ascii.eqb_spec c LF) as [-> | _].
    + constructor.
      * destruct (contains sub (cur +:+ NL)) eqn:E; [| reflexivity].
        apply (contains_append_l sub _ t) in E.
        rewrite append_assoc in E.
        change (NL +:+ t) with (String LF t) in E. congruence.
      * apply IH. destruct (contains sub ("" +:+ t)) eqn:E; [| reflexivity].
        apply (contains_append_r sub (cur +:+ NL)) in E.
        rewrite append_assoc in E.
        change (NL +:+ "" +:+ t) with (String LF t) in E. congruence.
    + apply IH. now rewrite append_assoc.
Qed.

Lemma contains_first_char (c : ascii) (sub s : string) :
  contains (String c sub) s = true -> has_char c s = true.
Proof.
  induction s as [|x s IH]; [discriminate |].
  rewrite contains_cons. cbn [has_char String.prefix].
  intros H. apply orb_true_iff in H as [H | H].
  - destruct (ascii_dec c x) as [-> | _]; [| discriminate H].
    now rewrite Ascii.eqb_refl.
  - rewrite (IH H). apply orb_true_r.
Qed.

(** A character that is no digit is not in a number. *)
Lemma has_char_str_nat (c : ascii) (n : nat) :
  has_char c "0123456789" = false -> has_char c (str_nat n) = false.
Proof.
  intros H. cbn [has_char] in H.
  repeat (apply orb_false_iff in H as [? H]).
  unfold str_nat. induction (Nat.to_uint n) as [|u IH|u IH|u IH|u IH|u IH
    |u IH|u IH|u IH|u IH|u IH];
    cbn [NilEmpty.string_of_uint has_char]; [reflexivity | ..];
    rewrite IH; rewrite orb_false_r; assumption.
Qed.

Lemma has_char_zeros (c : ascii) (n : nat) :
  Ascii.eqb "0" c = false -> has_char c (zeros n) = false.
Proof.
  intros H. induction n as [|n IH]; [reflexivity |].
  cbn [zeros has_char]. now rewrite H, IH.
Qed.

Lemma has_char_zfill (c : ascii) (width n : nat) :
  has_char c "0123456789" = false ->
  has_char c (zfill width (str_nat n)) = false.
Proof.
  intros H. pose proof (has_char_str_nat c n H) as Hn.
  assert (H0 : Ascii.eqb "0" c = false).
  { cbn [has_char] in H. now apply orb_false_iff in H as [? _]. }
  unfold zfill. destruct (str_nat n) as [|x t] eqn:E.
  - now apply has_char_zeros.
  - cbn [has_char] in Hn. apply orb_false_iff in Hn as [Hx Ht].
    destruct (_ || _).
    + cbn [has_char]. rewrite Hx, has_char_append, Ht.
      now rewrite has_char_zeros.
    + rewrite has_char_append, has_char_zeros by assumption.
      cbn [has_char]. now rewrite Hx, Ht.
Qed.

(** The digest is thirty-two hexadecimal digits: no newline. *)
Lemma hex_digit_upper_no_newline (n : N) :
  (n < 16)%N -> Ascii.eqb (upper_char (MD5.hex_digit n)) LF = false.
Proof.
  intros H.
  assert (Hn : In n [0; 1; 2; 3; 4; 5; 6; 7; 8; 9; 10; 11; 12; 13; 14; 15]%N).
  { cbn [In]. lia. }
  cbn [In] in Hn.
  repeat (destruct Hn as [<- | Hn]; [vm_compute; reflexivity |]).
  destruct Hn.
Qed.

Lemma hex_upper_no_newline (bs : list N) :
  Forall (fun b => (b < 256)%N) bs ->
  has_char LF (upper (MD5.hex bs)) = false.
Proof.
  induction 1 as [|b bs Hb _ IH]; [reflexivity |].
  cbn [MD5.hex upper has_char].
  rewrite IH, !hex_digit_upper_no_newline; [reflexivity | |].
  - apply N.mod_lt. discriminate.
  - apply N.Div0.div_lt_upper_bound. exact Hb.
Qed.

Lemma le_bytes_small (n : nat) (x : N) :
  Forall (fun b => (b < 256)%N) (MD5.le_bytes n x).
Proof.
  unfold MD5.le_bytes. apply Forall_forall. intros b Hb.
  apply list_elem_of_In, in_map_iff in Hb as (k & <- & _).
  apply N.mod_lt. discriminate.
Qed.

Lemma hexdigest_upper_no_newline (msg : list N) :
  has_char LF (upper (MD5.hexdigest msg)) = false.
Proof.
  unfold MD5.hexdigest, MD5.digest. apply hex_upper_no_newline.
  destruct (fold_left _ _ _) as [[[a b] c] d].
  repeat (apply Forall_app; split); apply le_bytes_small.
Qed.

(** The text of the window, line by line from the first 'BT' on. *)
Lemma message_text_lines (key tag security classifier : string)
    (src_ri dst_ri src_pla dst_pla : string) (serial : nat) (now : moment)
    (training : bool) (message : string) :
  message_text key tag security classifier src_ri dst_ri src_pla dst_pla
    serial now training message
  = header_text key tag security src_ri dst_ri src_pla dst_pla serial now
      +:+ ln "BT" +:+ ln classifier +:+ ln message +:+ ln "BT"
      +:+ ln ("#" +:+ zfill 4 (str_nat serial))
      +:+ ln ("[DIGEST:" +:+ upper (MD5.hexdigest (utf8 message)) +:+ "]")
      +:+ (if training then ln "TRAINING MESSAGE TAKE NO ACTION" else "")
      +:+ ln "" +:+ ln "NNNN".
Proof.
  unfold message_text, header_text, ln.
  destruct training; rewrite !append_assoc, ?append_nil; reflexivity.
Qed.

Lemma header_text_ends (key tag security : string)
    (src_ri dst_ri src_pla dst_pla : string) (serial : nat) (now : moment) :
  exists a,
    header_text key tag security src_ri dst_ri src_pla dst_pla serial now
    = a +:+ NL.
Proof.
  exists (NL +:+ "VZCZC" +:+ key +:+ "999" +:+ NL
          +:+ tag +:+ tag +:+ " " +:+ dst_ri +:+ NL
          +:+ "DE " +:+ src_ri +:+ " #" +:+ zfill 4 (str_nat serial) +:+ " "
              +:+ zfill 3 (str_nat (tm_yday now)) +:+ HM now +:+ NL
          +:+ security +:+ NL
          +:+ tag +:+ " " +:+ dHM now +:+ "Z " +:+ month_upper now +:+ " "
              +:+ Y now +:+ NL
          +:+ "FM " +:+ src_pla +:+ NL
          +:+ "TO " +:+ dst_ri +:+ "/" +:+ dst_pla).
  unfold header_text. now rewrite !append_assoc.
Qed.

(** X25. The text that sendToMsgMachine builds, read line by line and
    given to calculate_digest with any payload, comes back as it is: the
    MD5 of the event as it is, which sendToMsgMachine wrote, is the digest
    that calculate_digest computes for the span, the one line of the event
    between the 'BT' lines after the classifier. This holds when the event
    is already canonical (its words separated by single spaces, nothing at
    the ends), its line has neither the blank-remarks marker nor 'BT' at
    its end, the classifier is on one line and no line before the first
    'BT' line has 'BT' at its end. *)
Theorem window_digest_is_span_digest
    (key tag security classifier src_ri dst_ri src_pla dst_pla : string)
    (serial : nat) (now : moment) (training : bool)
    (message cot : string) :
  contains BT_LINE
    (header_text key tag security src_ri dst_ri src_pla dst_pla serial now)
  = false ->
  has_char LF classifier = false ->
  normalize message = message ->
  contains BLANK_REMARKS (ln message) = false ->
  contains BT_LINE (ln message) = false ->
  calculate_digest
    (lines_of (message_text key tag security classifier src_ri dst_ri
                 src_pla dst_pla serial now training message)) cot
  = lines_of (message_text key tag security classifier src_ri dst_ri
                src_pla dst_pla serial now training message).
Proof.
  intros Hh Hc Hn Hb Hs.
  assert (Hm : has_char LF message = false)
    by (rewrite <- Hn; apply normalize_no_newline).
  assert (Hserial : forall c, has_char c "0123456789" = false ->
                      Ascii.eqb "#" c = false ->
                      has_char c ("#" +:+ zfill 4 (str_nat serial)) = false).
  { intros c Hd Hc'. rewrite append_cons, append_nil. cbn [has_char].
    now rewrite Hc', has_char_zfill. }
  assert (Hdigest : has_char LF
            ("[DIGEST:" +:+ upper (MD5.hexdigest (utf8 message)) +:+ "]")
          = false).
  { rewrite !has_char_append, hexdigest_upper_no_newline. reflexivity. }
  assert (Htail : lines_go ""
            ((if training then ln "TRAINING MESSAGE TAKE NO ACTION" else "")
             +:+ ln "" +:+ ln "NNNN")
          = (if training then [ln "TRAINING MESSAGE TAKE NO ACTION"] else [])
            ++ [ln ""; ln "NNNN"]).
  { destruct training; reflexivity. }
  unfold lines_of. rewrite message_text_lines.
  destruct (header_text_ends key tag security src_ri dst_ri src_pla dst_pla
              serial now) as [a Ha].
  pose proof (lines_go_without BT_LINE _ "" Hh) as Hpre.
  rewrite Ha in Hpre |- *. rewrite append_assoc, lines_go_append.
  rewrite !lines_go_ln, Htail
    by (try assumption; try reflexivity;
        apply Hserial; reflexivity).
  set (pre := lines_go "" (a +:+ NL)) in *.
  assert (Hspan : Shape.no_sentinel [ln message])
    by (repeat constructor; exact Hs).
  pose proof (fun post =>
                calculate_digest_closed cot pre [ln message] post (ln "BT")
                  (ln classifier) (ln "BT") Hpre eq_refl Hspan eq_refl) as E.
  unfold Shape.splice in E. cbn [map app] in E. rewrite Hb in E.
  cbn [app]. rewrite E.
  rewrite after_span_map, normalize_one_line, Hn.
  cbn [map app].
  assert (Hmark : contains DIGEST_MARK (ln ("#" +:+ zfill 4 (str_nat serial)))
                  = false).
  { destruct (contains DIGEST_MARK (ln ("#" +:+ zfill 4 (str_nat serial))))
      eqn:Em; [| reflexivity].
    apply contains_first_char in Em. unfold ln in Em.
    rewrite has_char_append, Hserial in Em by reflexivity. discriminate Em. }
  rewrite Hmark.
  replace (ln ("[DIGEST:" +:+ upper (MD5.hexdigest (utf8 message)) +:+ "]"))
    with (digest_line (md5_upper message))
    by (unfold digest_line, md5_upper, ln; now rewrite !append_assoc).
  rewrite digest_line_has_mark.
  destruct training; reflexivity.
Qed.

Lemma window_digest_is_span_digest_witness :
  let text :=
    message_text "MMM" "R" "ZNR UUUUU" "UNCLAS" "RHAEN" "RHOMN" "AAR9EN CO"
      "ORANGE MAIN" 1 noon false (Samples.position_event "A1") in
  calculate_digest (lines_of text) "<event/>" = lines_of text.
Proof.
  cbv zeta.
  assert (H1 : contains BT_LINE
                 (header_text "MMM" "R" "ZNR UUUUU" "RHAEN" "RHOMN"
                    "AAR9EN CO" "ORANGE MAIN" 1 noon) = false)
    by (vm_compute; reflexivity).
  assert (H2 : has_char LF "UNCLAS" = false) by reflexivity.
  assert (H3 : normalize (Samples.position_event "A1")
               = Samples.position_event "A1") by (vm_compute; reflexivity).
  assert (H4 : contains BLANK_REMARKS (ln (Samples.position_event "A1"))
               = false) by (vm_compute; reflexivity).
  assert (H5 : contains BT_LINE (ln (Samples.position_event "A1")) = false)
    by (vm_compute; reflexivity).
  exact (window_digest_is_span_digest "MMM" "R" "ZNR UUUUU" "UNCLAS" "RHAEN"
           "RHOMN" "AAR9EN CO" "ORANGE MAIN" 1 noon false
           (Samples.position_event "A1") "<event/>" H1 H2 H3 H4 H5).
Defined.

End GuiFacts.
